(** * Order lifecycle and inventory consistency of instashop-task

    A shallow embedding of the order engine of the repository:
    [internal/models], [pkg] (error values, id generation),
    the PostgreSQL schema of the first migration, [internal/repository]
    and the order operations of [internal/service].

    Modelling decisions, all visible in the definitions below:
    - Go's [int] is a 64-bit two's complement integer: [Z] with [wrap64]
      on every addition and subtraction.  Go's [float64] is Rocq's
      primitive binary64 [float], each operation rounded on its own (no
      fused multiply-add).
    - A Go function returning [(T, error)] is a computation [M T] over the
      [World]: an explicit state and error monad.  An [error] return alone
      is [M unit].
    - The database is the committed content of the four tables the order
      engine touches, plus the buffer of writes of the one open
      transaction.  A statement issued on the pool ([r.db]) acts on the
      committed tables at once; a statement issued on a [pgx.Tx] acts on the
      buffer, which [Commit] applies and [Rollback] drops.
    - Every statement first consults [faults], the schedule of connection
      failures of the environment: this is what the [err != nil] branches
      that are not [NotFound] react to.
    - [ksuid.New] is an oracle: the [ksuid_n]-th draw is
      [ksuid_src ksuid_n].
    - Time stamps, the generated [subtotal] column and the [Product]
      pointer of an order item (JSON output only) influence no outcome and
      are left out; scanning a returned row into a struct is
      taken to succeed; NUMERIC(10,2) columns carry the [float64] that the
      driver moves in and out, and the CHECKs on them compare as IEEE
      does. *)

From Stdlib Require Import ZArith String List Floats Lia.
From stdpp Require Import base option list gmap strings.
Import ListNotations.

Local Open Scope string_scope.

(** ** Go integers and floats *)

Module golang.

Definition wrap64 (z : Z) : Z := ((z + 2 ^ 63) mod 2 ^ 64 - 2 ^ 63)%Z.

(** [a + b] and [a - b] on [int]. *)
Definition int_add (a b : Z) : Z := wrap64 (a + b).
Definition int_sub (a b : Z) : Z := wrap64 (a - b).

(** [float64(n)] for [n : int]: round to nearest, ties to even. *)
Definition float64_of_int (n : Z) : float :=
  SF2Prim (binary_normalize 53 1024 n 0 false).

End golang.

(** ** internal/models *)

Module models.

Inductive OrderStatus : Type :=
| StatusPending
| StatusConfirmed
| StatusShipped
| StatusDelivered
| StatusCancelled.

#[global] Instance OrderStatus_eq_dec : EqDecision OrderStatus.
Proof. solve_decision. Defined.

(** The string a status prints as ([%s]). *)
Definition OrderStatus_string (s : OrderStatus) : string :=
  match s with
  | StatusPending => "pending"
  | StatusConfirmed => "confirmed"
  | StatusShipped => "shipped"
  | StatusDelivered => "delivered"
  | StatusCancelled => "cancelled"
  end.

Record Product : Type := mkProduct {
  Product_ID : string;
  Product_Name : string;
  Product_Description : string;
  Product_Price : float;
  Product_StockQuantity : Z
}.

Record OrderItem : Type := mkOrderItem {
  OrderItem_ID : string;
  OrderItem_OrderID : string;
  OrderItem_ProductID : string;
  OrderItem_Quantity : Z;
  OrderItem_UnitPrice : float
}.

Record Order : Type := mkOrder {
  Order_ID : string;
  Order_UserID : string;
  Order_Status : OrderStatus;
  Order_TotalAmount : float;
  Order_Items : list OrderItem
}.

(** The zero value of [OrderItem], as [make] fills a slice with. *)
Definition OrderItem_zero : OrderItem :=
  mkOrderItem "" "" "" 0 0%float.

(** internal/models/dto.go *)
Record CreateOrderItemRequest : Type := mkCreateOrderItemRequest {
  Req_ProductID : string;
  Req_Quantity : Z
}.

Record CreateOrderRequest : Type := mkCreateOrderRequest {
  Req_Items : list CreateOrderItemRequest
}.

Record CreateProductRequest : Type := mkCreateProductRequest {
  Req_Name : string;
  Req_Description : string;
  Req_Price : float;
  Req_StockQuantity : Z
}.

Definition Product_set_StockQuantity (p : Product) (q : Z) : Product :=
  mkProduct (Product_ID p) (Product_Name p) (Product_Description p)
            (Product_Price p) q.

Definition Order_set_Items (o : Order) (l : list OrderItem) : Order :=
  mkOrder (Order_ID o) (Order_UserID o) (Order_Status o)
          (Order_TotalAmount o) l.

Definition Order_set_TotalAmount (o : Order) (t : float) : Order :=
  mkOrder (Order_ID o) (Order_UserID o) (Order_Status o) t (Order_Items o).

Definition OrderItem_set_ids (i : OrderItem) (id oid : string) : OrderItem :=
  mkOrderItem id oid (OrderItem_ProductID i) (OrderItem_Quantity i)
              (OrderItem_UnitPrice i).

End models.

(** ** The PostgreSQL store: tables, constraints, statements *)

Module pg.

(** What a statement can fail with.  [ErrNoRows] is what
    [pgxscan.NotFound] recognises. *)
Inductive pgerr : Type :=
| ErrNoRows
| ConnectionFailure
| NumericValueOutOfRange
| CheckViolation
| UniqueViolation
| ForeignKeyViolation.

#[global] Instance pgerr_eq_dec : EqDecision pgerr.
Proof. solve_decision. Defined.

(** Rows, with the primary key of [products] and [orders] as the key of
    the map that holds the table. *)
Record ProductRow : Type := mkProductRow {
  p_name : string;
  p_description : string;
  p_price : float;
  p_stock_quantity : Z
}.

Record OrderRow : Type := mkOrderRow {
  o_user_id : string;
  o_status : models.OrderStatus;
  o_total_amount : float
}.

Record OrderItemRow : Type := mkOrderItemRow {
  oi_id : string;
  oi_order_id : string;
  oi_product_id : string;
  oi_quantity : Z;
  oi_unit_price : float
}.

Record DB : Type := mkDB {
  users : gset string;
  products : gmap string ProductRow;
  orders : gmap string OrderRow;
  order_items : list OrderItemRow
}.

(** The writes of the open transaction, invisible outside it until
    commit. *)
Record TxBuf : Type := mkTxBuf {
  tx_orders : gmap string OrderRow;
  tx_order_items : list OrderItemRow
}.

Definition TxBuf_empty : TxBuf := mkTxBuf ∅ [].

Definition set_products (d : DB) (ps : gmap string ProductRow) : DB :=
  mkDB (users d) ps (orders d) (order_items d).

Definition set_orders (d : DB) (os : gmap string OrderRow) : DB :=
  mkDB (users d) (products d) os (order_items d).

(** INTEGER is four bytes. *)
Definition int4 (z : Z) : bool :=
  ((- 2 ^ 31 <=? z) && (z <? 2 ^ 31))%Z.

(** [SELECT ... FROM products WHERE id = $1] *)
Definition select_product (id : string) (d : DB) : pgerr + models.Product :=
  match products d !! id with
  | None => inl ErrNoRows
  | Some r =>
      inr (models.mkProduct id (p_name r) (p_description r) (p_price r)
                            (p_stock_quantity r))
  end.

(** [UPDATE products SET name, description, price, stock_quantity
    WHERE id = $6 RETURNING updated_at], with the column type INTEGER and
    the CHECKs [price > 0] and [stock_quantity >= 0]. *)
Definition update_product (p : models.Product) (d : DB)
  : (pgerr + unit) * DB :=
  if negb (int4 (models.Product_StockQuantity p)) then
    (inl NumericValueOutOfRange, d)
  else
    match products d !! models.Product_ID p with
    | None => (inl ErrNoRows, d)
    | Some _ =>
        if (PrimFloat.ltb 0 (models.Product_Price p)
            && (0 <=? models.Product_StockQuantity p)%Z)
        then
          (inr tt,
           set_products d
             (<[models.Product_ID p :=
                  mkProductRow (models.Product_Name p)
                               (models.Product_Description p)
                               (models.Product_Price p)
                               (models.Product_StockQuantity p)]>
                (products d)))
        else (inl CheckViolation, d)
    end.

(** [SELECT ... FROM orders WHERE id = $1]; [Items] has tag [db:"-"]. *)
Definition select_order (id : string) (d : DB) : pgerr + models.Order :=
  match orders d !! id with
  | None => inl ErrNoRows
  | Some r =>
      inr (models.mkOrder id (o_user_id r) (o_status r) (o_total_amount r) [])
  end.

(** One row of [order_items i JOIN products p ON p.id = i.product_id]. *)
Definition join_product (d : DB) (i : OrderItemRow) : option models.OrderItem :=
  match products d !! oi_product_id i with
  | None => None
  | Some _ =>
      Some (models.mkOrderItem (oi_id i) (oi_order_id i) (oi_product_id i)
              (oi_quantity i) (oi_unit_price i))
  end.

(** [SELECT i.*, p.* FROM order_items i JOIN products p ...
    WHERE i.order_id = $1] *)
Definition select_order_items (id : string) (d : DB) : list models.OrderItem :=
  omap (join_product d)
       (filter (fun i => oi_order_id i = id) (order_items d)).

(** [UPDATE orders SET status = $1 WHERE id = $3 RETURNING updated_at] *)
Definition update_order_status (id : string) (s : models.OrderStatus) (d : DB)
  : (pgerr + unit) * DB :=
  match orders d !! id with
  | None => (inl ErrNoRows, d)
  | Some r =>
      (inr tt,
       set_orders d (<[id := mkOrderRow (o_user_id r) s (o_total_amount r)]>
                       (orders d)))
  end.

(** [INSERT INTO orders (id, user_id, status, total_amount)], issued inside
    a transaction: CHECK [total_amount >= 0], the primary key, the foreign
    key to [users]. *)
Definition insert_order (o : models.Order) (d : DB) (t : TxBuf)
  : (pgerr + unit) * TxBuf :=
  if negb (PrimFloat.leb 0 (models.Order_TotalAmount o)) then
    (inl CheckViolation, t)
  else if bool_decide (is_Some (orders d !! models.Order_ID o))
          || bool_decide (is_Some (tx_orders t !! models.Order_ID o)) then
    (inl UniqueViolation, t)
  else if negb (bool_decide (models.Order_UserID o ∈ users d)) then
    (inl ForeignKeyViolation, t)
  else
    (inr tt,
     mkTxBuf (<[models.Order_ID o :=
                  mkOrderRow (models.Order_UserID o) (models.Order_Status o)
                             (models.Order_TotalAmount o)]> (tx_orders t))
             (tx_order_items t)).

Definition item_row (i : models.OrderItem) : OrderItemRow :=
  mkOrderItemRow (models.OrderItem_ID i) (models.OrderItem_OrderID i)
                 (models.OrderItem_ProductID i) (models.OrderItem_Quantity i)
                 (models.OrderItem_UnitPrice i).

(** The rows of [order_items] the transaction sees. *)
Definition visible_items (d : DB) (t : TxBuf) : list OrderItemRow :=
  order_items d ++ tx_order_items t.

(** [INSERT INTO order_items (id, order_id, product_id, quantity,
    unit_price)], issued inside a transaction: INTEGER range, CHECKs
    [quantity > 0] and [unit_price >= 0], the primary key,
    UNIQUE(order_id, product_id), the two foreign keys. *)
Definition insert_order_item (i : models.OrderItem) (d : DB) (t : TxBuf)
  : (pgerr + unit) * TxBuf :=
  if negb (int4 (models.OrderItem_Quantity i)) then
    (inl NumericValueOutOfRange, t)
  else if negb ((0 <? models.OrderItem_Quantity i)%Z
                && PrimFloat.leb 0 (models.OrderItem_UnitPrice i)) then
    (inl CheckViolation, t)
  else if bool_decide (Exists (fun r => oi_id r = models.OrderItem_ID i)
                              (visible_items d t))
          || bool_decide (Exists (fun r =>
                  oi_order_id r = models.OrderItem_OrderID i
                  ∧ oi_product_id r = models.OrderItem_ProductID i)
                (visible_items d t)) then
    (inl UniqueViolation, t)
  else if negb (bool_decide (is_Some (orders d !! models.OrderItem_OrderID i))
                || bool_decide (is_Some (tx_orders t !! models.OrderItem_OrderID i)))
          || negb (bool_decide (is_Some (products d !! models.OrderItem_ProductID i)))
  then
    (inl ForeignKeyViolation, t)
  else
    (inr tt, mkTxBuf (tx_orders t) (tx_order_items t ++ [item_row i])).

(** What [COMMIT] makes of the committed tables. *)
Definition apply_tx (t : TxBuf) (d : DB) : DB :=
  mkDB (users d) (products d) (tx_orders t ∪ orders d)
       (order_items d ++ tx_order_items t).

End pg.

(** ** pkg: error values and id generation *)

Module pkg.

(** Go [error] values: the sentinels of [pkg/errors.go], an error raised
    by the driver, [fmt.Errorf] without and with [%w]. *)
Inductive error : Type :=
| ErrNotFound
| ErrDatabase
| ErrInvalidCredentials
| ErrEmailTaken
| ErrInsufficientStock
| ErrInvalidInput
| ErrOrderNotPending
| ErrUnauthorized
| PgError (c : pg.pgerr)
| Errorf (msg : string)
| Wrap (msg : string) (e : error)
| Wrap2 (msg1 : string) (e1 : error) (msg2 : string) (e2 : error).

#[global] Instance error_eq_dec : EqDecision error.
Proof. solve_decision. Defined.

(** [errors.Is(e, target)]: [target] is found along the [%w] chains. *)
Fixpoint errors_Is (e target : error) : bool :=
  bool_decide (e = target)
  || match e with
     | Wrap _ e' => errors_Is e' target
     | Wrap2 _ e1 _ e2 => errors_Is e1 target || errors_Is e2 target
     | _ => false
     end.

End pkg.

(** ** The world a request runs in, and the monad of Go calls *)

Record World : Type := mkWorld {
  db : pg.DB;
  tx : pg.TxBuf;
  faults : list bool;
  ksuid_src : nat -> string;
  ksuid_n : nat
}.

Definition set_db (w : World) (d : pg.DB) : World :=
  mkWorld d (tx w) (faults w) (ksuid_src w) (ksuid_n w).

Definition set_tx (w : World) (t : pg.TxBuf) : World :=
  mkWorld (db w) t (faults w) (ksuid_src w) (ksuid_n w).

Definition set_faults (w : World) (fs : list bool) : World :=
  mkWorld (db w) (tx w) fs (ksuid_src w) (ksuid_n w).

Inductive result (A : Type) : Type :=
| Ok (a : A)
| Err (e : pkg.error).

Arguments Ok {A} a.
Arguments Err {A} e.

Definition M (A : Type) : Type := World -> result A * World.

Definition ret {A : Type} (a : A) : M A := fun w => (Ok a, w).

Definition raise {A : Type} (e : pkg.error) : M A := fun w => (Err e, w).

Definition bind {A B : Type} (m : M A) (k : A -> M B) : M B :=
  fun w =>
    match m w with
    | (Ok a, w') => k a w'
    | (Err e, w') => (Err e, w')
    end.

Notation "x <- m ;; k" := (bind m (fun x => k))
  (at level 100, m at next level, right associativity).
Notation "m ;;; k" := (bind m (fun _ => k))
  (at level 100, right associativity).

(** [if err != nil { return fmt.Errorf("msg: %w", err) }] around a call. *)
Definition wrapf {A : Type} (msg : string) (m : M A) : M A :=
  fun w =>
    match m w with
    | (Ok a, w') => (Ok a, w')
    | (Err e, w') => (Err (pkg.Wrap msg e), w')
    end.

(** Does the next round trip to the server fail?  The schedule moves on;
    once it is exhausted nothing fails any more. *)
Definition round_trip (w : World) : bool * World :=
  (hd false (faults w), set_faults w (tail (faults w))).

(** A statement on the pool: it takes effect on the committed tables. *)
Definition pool_exec {A : Type} (stmt : pg.DB -> (pg.pgerr + A) * pg.DB)
  : World -> (pg.pgerr + A) * World :=
  fun w =>
    let (down, w1) := round_trip w in
    if down then (inl pg.ConnectionFailure, w1)
    else let (r, d) := stmt (db w1) in (r, set_db w1 d).

(** A statement on the open transaction: it takes effect on its buffer. *)
Definition tx_exec {A : Type}
    (stmt : pg.DB -> pg.TxBuf -> (pg.pgerr + A) * pg.TxBuf)
  : World -> (pg.pgerr + A) * World :=
  fun w =>
    let (down, w1) := round_trip w in
    if down then (inl pg.ConnectionFailure, w1)
    else let (r, t) := stmt (db w1) (tx w1) in (r, set_tx w1 t).

(** Turn the driver's answer into a Go return, mapping the error. *)
Definition scan {A : Type} (q : World -> (pg.pgerr + A) * World)
    (on_err : pg.pgerr -> pkg.error) : M A :=
  fun w =>
    match q w with
    | (inr a, w') => (Ok a, w')
    | (inl e, w') => (Err (on_err e), w')
    end.

(** [if pgxscan.NotFound(err) { return pkg.ErrNotFound };
     return fmt.Errorf("msg: %w", err)] *)
Definition not_found_or (msg : string) (e : pg.pgerr) : pkg.error :=
  match e with
  | pg.ErrNoRows => pkg.ErrNotFound
  | _ => pkg.Wrap msg (pkg.PgError e)
  end.

(** [return fmt.Errorf("msg: %w", err)] *)
Definition wrapped (msg : string) (e : pg.pgerr) : pkg.error :=
  pkg.Wrap msg (pkg.PgError e).

(** pkg/helpers.go: [GenerateID] *)
Definition GenerateID : M string :=
  fun w =>
    (Ok (ksuid_src w (ksuid_n w)),
     mkWorld (db w) (tx w) (faults w) (ksuid_src w) (S (ksuid_n w))).

(** ** internal/repository *)

Module repository.

(** The handle [pgx.Tx]: there is one open transaction at a time. *)
Inductive Tx : Type := TheTx.

Definition GetProductByID (id : string) : M models.Product :=
  scan (pool_exec (fun d => (pg.select_product id d, d)))
       (not_found_or "get product by id").

Definition UpdateProduct (product : models.Product) : M unit :=
  scan (pool_exec (pg.update_product product))
       (not_found_or "update product").

Fixpoint CreateOrder_items (order_id : string) (items : list models.OrderItem)
  : M (list models.OrderItem) :=
  match items with
  | [] => ret []
  | item :: rest =>
      id <- GenerateID ;;
      let item := models.OrderItem_set_ids item id order_id in
      scan (tx_exec (pg.insert_order_item item)) (wrapped "create order item") ;;;
      rest <- CreateOrder_items order_id rest ;;
      ret (item :: rest)
  end.

(** The order comes back with the ids its items were given. *)
Definition CreateOrder (_ : Tx) (order : models.Order) : M models.Order :=
  scan (tx_exec (pg.insert_order order)) (wrapped "create order") ;;;
  items <- CreateOrder_items (models.Order_ID order) (models.Order_Items order) ;;
  ret (models.Order_set_Items order items).

Definition BeginTx : M Tx :=
  fun w =>
    let (down, w1) := round_trip w in
    if down then (Err (pkg.PgError pg.ConnectionFailure), w1)
    else (Ok TheTx, set_tx w1 pg.TxBuf_empty).

Definition Rollback (_ : Tx) : M unit :=
  fun w =>
    let (down, w1) := round_trip w in
    let w2 := set_tx w1 pg.TxBuf_empty in
    if down then (Err (pkg.PgError pg.ConnectionFailure), w2)
    else (Ok tt, w2).

Definition Commit (_ : Tx) : M unit :=
  fun w =>
    let (down, w1) := round_trip w in
    if down then
      (Err (pkg.PgError pg.ConnectionFailure), set_tx w1 pg.TxBuf_empty)
    else
      (Ok tt, set_tx (set_db w1 (pg.apply_tx (tx w1) (db w1))) pg.TxBuf_empty).

Definition WithTransaction (fn : Tx -> M unit) : M unit :=
  t <- BeginTx ;;
  fun w =>
    match fn t w with
    | (Err e, w1) =>
        match Rollback t w1 with
        | (Err rbErr, w2) => (Err (pkg.Wrap2 "tx err" e "rb err" rbErr), w2)
        | (Ok _, w2) => (Err e, w2)
        end
    | (Ok _, w1) => Commit t w1
    end.

Definition GetOrderByID (id : string) : M models.Order :=
  order <- scan (pool_exec (fun d => (pg.select_order id d, d)))
                (not_found_or "get order by id") ;;
  items <- scan (pool_exec (fun d => (inr (pg.select_order_items id d), d)))
                (wrapped "get order items") ;;
  ret (models.Order_set_Items order items).

Definition UpdateOrderStatus (id : string) (status : models.OrderStatus)
  : M unit :=
  scan (pool_exec (pg.update_order_status id status))
       (not_found_or "update order status").

End repository.

(** ** internal/service *)

Module service.

Definition UpdateProduct (id : string) (req : models.CreateProductRequest)
  : M models.Product :=
  let product :=
    models.mkProduct id (models.Req_Name req) (models.Req_Description req)
                     (models.Req_Price req) (models.Req_StockQuantity req) in
  wrapf "updating product" (repository.UpdateProduct product) ;;;
  ret product.

(** The body of [for i, item := range req.Items]. *)
Fixpoint CreateOrder_loop (i : nat) (items : list models.CreateOrderItemRequest)
    (order : models.Order) : M models.Order :=
  match items with
  | [] => ret order
  | item :: rest =>
      product <- wrapf ("getting product " ++ models.Req_ProductID item)
                   (repository.GetProductByID (models.Req_ProductID item)) ;;
      if (models.Product_StockQuantity product <? models.Req_Quantity item)%Z
      then raise pkg.ErrInsufficientStock
      else
        let product :=
          models.Product_set_StockQuantity product
            (golang.int_sub (models.Product_StockQuantity product)
                            (models.Req_Quantity item)) in
        wrapf "updating product stock" (repository.UpdateProduct product) ;;;
        let order :=
          models.Order_set_Items order
            (<[i := models.mkOrderItem "" "" (models.Product_ID product)
                      (models.Req_Quantity item)
                      (models.Product_Price product)]>
               (models.Order_Items order)) in
        let order :=
          models.Order_set_TotalAmount order
            (PrimFloat.add (models.Order_TotalAmount order)
               (PrimFloat.mul (models.Product_Price product)
                  (golang.float64_of_int (models.Req_Quantity item)))) in
        CreateOrder_loop (S i) rest order
  end.

(** The closure handed to [WithTransaction]. *)
Definition CreateOrder_fn (userID : string) (req : models.CreateOrderRequest)
    (t : repository.Tx) : M unit :=
  let order :=
    models.mkOrder "" userID models.StatusPending 0%float
      (replicate (length (models.Req_Items req)) models.OrderItem_zero) in
  order <- CreateOrder_loop 0 (models.Req_Items req) order ;;
  wrapf "creating order" (repository.CreateOrder t order) ;;;
  ret tt.

Definition CreateOrder (userID : string) (req : models.CreateOrderRequest)
  : M unit :=
  repository.WithTransaction (CreateOrder_fn userID req).

Definition UpdateStatus (id : string) (status : models.OrderStatus) : M unit :=
  order <- wrapf "getting order" (repository.GetOrderByID id) ;;
  if bool_decide (models.Order_Status order = models.StatusCancelled)
     || bool_decide (models.Order_Status order = models.StatusDelivered)
  then
    raise (pkg.Errorf ("cannot update "
                       ++ models.OrderStatus_string (models.Order_Status order)
                       ++ " order"))
  else
    wrapf "updating order status" (repository.UpdateOrderStatus id status) ;;;
    ret tt.

(** The body of [for _, item := range order.Items]. *)
Fixpoint CancelOrder_loop (items : list models.OrderItem) : M unit :=
  match items with
  | [] => ret tt
  | item :: rest =>
      product <- wrapf "getting product"
                   (repository.GetProductByID (models.OrderItem_ProductID item)) ;;
      let product :=
        models.Product_set_StockQuantity product
          (golang.int_add (models.Product_StockQuantity product)
                          (models.OrderItem_Quantity item)) in
      wrapf "restoring product stock" (repository.UpdateProduct product) ;;;
      CancelOrder_loop rest
  end.

(** The closure handed to [WithTransaction]; its last [return err]
    returns the outer [err], which is [nil] there. *)
Definition CancelOrder_fn (id : string) (order : models.Order)
    (_ : repository.Tx) : M unit :=
  wrapf "updating order status"
    (repository.UpdateOrderStatus id models.StatusCancelled) ;;;
  CancelOrder_loop (models.Order_Items order).

Definition CancelOrder (id : string) (userID : string) : M unit :=
  order <- wrapf "getting order" (repository.GetOrderByID id) ;;
  if negb (bool_decide (models.Order_UserID order = userID)) then
    raise pkg.ErrUnauthorized
  else if negb (bool_decide (models.Order_Status order = models.StatusPending))
  then raise pkg.ErrOrderNotPending
  else
    repository.WithTransaction (CancelOrder_fn id order).

End service.


(** ** The rest of the catalog: creating, reading and deleting products *)

Module products_sql.

(** [INSERT INTO products (id, name, description, price, stock_quantity)]:
    the column type INTEGER, the CHECKs [price > 0] and
    [stock_quantity >= 0], the primary key. *)
Definition insert_product (p : models.Product) (d : pg.DB)
  : (pg.pgerr + unit) * pg.DB :=
  if negb (pg.int4 (models.Product_StockQuantity p)) then
    (inl pg.NumericValueOutOfRange, d)
  else if negb (PrimFloat.ltb 0 (models.Product_Price p)
                && (0 <=? models.Product_StockQuantity p)%Z) then
    (inl pg.CheckViolation, d)
  else if bool_decide (is_Some (pg.products d !! models.Product_ID p)) then
    (inl pg.UniqueViolation, d)
  else
    (inr tt,
     pg.set_products d
       (<[models.Product_ID p :=
            pg.mkProductRow (models.Product_Name p)
              (models.Product_Description p) (models.Product_Price p)
              (models.Product_StockQuantity p)]> (pg.products d))).

(** [DELETE FROM products WHERE id = $1], answering the number of rows
    affected; [order_items.product_id] references [products] ON DELETE
    RESTRICT. *)
Definition delete_product (id : string) (d : pg.DB)
  : (pg.pgerr + nat) * pg.DB :=
  match pg.products d !! id with
  | None => (inr 0%nat, d)
  | Some _ =>
      if bool_decide (Exists (fun i => pg.oi_product_id i = id)
                             (pg.order_items d))
      then (inl pg.ForeignKeyViolation, d)
      else (inr 1%nat, pg.set_products d (delete id (pg.products d)))
  end.

End products_sql.

(** internal/repository: [CreateProduct], [DeleteProduct] *)
Module products_repository.

Definition CreateProduct (product : models.Product) : M unit :=
  scan (pool_exec (products_sql.insert_product product))
       (wrapped "create product").

(** [r.db.Exec], then [result.RowsAffected() == 0]. *)
Definition DeleteProduct (id : string) : M unit :=
  n <- scan (pool_exec (products_sql.delete_product id))
            (wrapped "delete product") ;;
  if (n =? 0)%nat then raise pkg.ErrNotFound else ret tt.

End products_repository.

(** internal/service: [CreateProduct], [GetProductByID], [DeleteProduct],
    [GetOrderByID] *)
Module products_service.

Definition CreateProduct (req : models.CreateProductRequest)
  : M models.Product :=
  id <- GenerateID ;;
  let product :=
    models.mkProduct id (models.Req_Name req) (models.Req_Description req)
                     (models.Req_Price req) (models.Req_StockQuantity req) in
  wrapf "creating product" (products_repository.CreateProduct product) ;;;
  ret product.

Definition GetProductByID (id : string) : M models.Product :=
  wrapf "getting product" (repository.GetProductByID id).

Definition DeleteProduct (id : string) : M unit :=
  wrapf "deleting product" (products_repository.DeleteProduct id).

End products_service.

Module orders_service.

Definition GetOrderByID (id : string) : M models.Order :=
  wrapf "getting order" (repository.GetOrderByID id).

End orders_service.

(** ** internal/controller/handler: the answers to the caller *)

Module handler.

(** internal/models/dto.go; [Details] is only ever set from an error that
    has a [Validation] method, which no error of this program has. *)
Record ErrorResponse : Type := mkErrorResponse {
  Code : string;
  Message : string
}.

Inductive Body : Type :=
| NoBody
| ErrorBody (r : ErrorResponse)
| ProductBody (p : models.Product)
| OrderBody (o : models.Order).

Record Response : Type := mkResponse {
  Status : nat;
  Content : Body
}.

(** The [switch] of [handleError]: the first case whose sentinel
    [errors.Is] finds decides; logging is left out. *)
Definition handleError (err : pkg.error) : Response :=
  if pkg.errors_Is err pkg.ErrInvalidCredentials then
    mkResponse 401 (ErrorBody (mkErrorResponse "INVALID_CREDENTIALS"
                                 "Invalid email or password"))
  else if pkg.errors_Is err pkg.ErrEmailTaken then
    mkResponse 409 (ErrorBody (mkErrorResponse "EMAIL_TAKEN"
                                 "Email is already registered"))
  else if pkg.errors_Is err pkg.ErrNotFound then
    mkResponse 404 (ErrorBody (mkErrorResponse "NOT_FOUND"
                                 "Resource not found"))
  else if pkg.errors_Is err pkg.ErrUnauthorized then
    mkResponse 403 (ErrorBody (mkErrorResponse "UNAUTHORIZED"
                                 "You don't have permission to perform this action"))
  else if pkg.errors_Is err pkg.ErrInsufficientStock then
    mkResponse 400 (ErrorBody (mkErrorResponse "INSUFFICIENT_STOCK"
                                 "One or more products are out of stock"))
  else if pkg.errors_Is err pkg.ErrOrderNotPending then
    mkResponse 400 (ErrorBody (mkErrorResponse "INVALID_ORDER_STATUS"
                                 "Order cannot be modified in its current status"))
  else if pkg.errors_Is err pkg.ErrInvalidInput then
    mkResponse 400 (ErrorBody (mkErrorResponse "INVALID_INPUT"
                                 "Invalid input provided"))
  else
    mkResponse 500 (ErrorBody (mkErrorResponse "INTERNAL_ERROR"
                                 "An unexpected error occurred")).

(** A handler without request body: call the service, answer its error
    through [handleError], else answer [ok]. *)
Definition answer {A : Type} (call : M A) (ok : A -> Response)
  : World -> Response * World :=
  fun w =>
    match call w with
    | (Ok a, w') => (ok a, w')
    | (Err e, w') => (handleError e, w')
    end.

Definition GetProduct (id : string) : World -> Response * World :=
  answer (products_service.GetProductByID id)
         (fun product => mkResponse 200 (ProductBody product)).

Definition DeleteProduct (id : string) : World -> Response * World :=
  answer (products_service.DeleteProduct id) (fun _ => mkResponse 204 NoBody).

Definition GetOrder (id : string) : World -> Response * World :=
  answer (orders_service.GetOrderByID id)
         (fun order => mkResponse 200 (OrderBody order)).

Definition CancelOrder (id : string) (userID : string)
  : World -> Response * World :=
  answer (service.CancelOrder id userID) (fun _ => mkResponse 200 NoBody).

End handler.

(** ** Sequences of service calls of every kind *)

Inductive request : Type :=
| DoCreateOrder (userID : string) (req : models.CreateOrderRequest)
| DoCancelOrder (id : string) (userID : string)
| DoUpdateStatus (id : string) (status : models.OrderStatus)
| DoGetOrderByID (id : string)
| DoCreateProduct (req : models.CreateProductRequest)
| DoUpdateProduct (id : string) (req : models.CreateProductRequest)
| DoDeleteProduct (id : string)
| DoGetProductByID (id : string).

(** The world a service call leaves behind, whatever it returned. *)
Definition serve (r : request) (w : World) : World :=
  match r with
  | DoCreateOrder userID req => snd (service.CreateOrder userID req w)
  | DoCancelOrder id userID => snd (service.CancelOrder id userID w)
  | DoUpdateStatus id status => snd (service.UpdateStatus id status w)
  | DoGetOrderByID id => snd (orders_service.GetOrderByID id w)
  | DoCreateProduct req => snd (products_service.CreateProduct req w)
  | DoUpdateProduct id req => snd (service.UpdateProduct id req w)
  | DoDeleteProduct id => snd (products_service.DeleteProduct id w)
  | DoGetProductByID id => snd (products_service.GetProductByID id w)
  end.

(** The world after all of [rs], and the worlds after each of them. *)
Definition serve_all (rs : list request) (w : World) : World :=
  fold_left (fun w r => serve r w) rs w.

Fixpoint history (rs : list request) (w : World) : list World :=
  match rs with
  | [] => []
  | r :: rs' => serve r w :: history rs' (serve r w)
  end.

(** ** Sequences of calls, one at a time *)

Inductive call : Type :=
| CallCreateOrder (userID : string) (req : models.CreateOrderRequest)
| CallCancelOrder (id : string) (userID : string).

(** The world a call leaves behind, whatever it returned. *)
Definition perform (c : call) (w : World) : World :=
  match c with
  | CallCreateOrder userID req => snd (service.CreateOrder userID req w)
  | CallCancelOrder id userID => snd (service.CancelOrder id userID w)
  end.

(** The worlds after the first, the second, ... call. *)
Fixpoint trace (cs : list call) (w : World) : list World :=
  match cs with
  | [] => []
  | c :: cs' => perform c w :: trace cs' (perform c w)
  end.

(** ** Predicates on the store *)

Definition stock_of (d : pg.DB) (id : string) : option Z :=
  pg.p_stock_quantity <$> pg.products d !! id.

Definition price_of (d : pg.DB) (id : string) : option float :=
  pg.p_price <$> pg.products d !! id.

(** [stock_quantity >= 0] in every row of [products]. *)
Definition stock_nonneg (d : pg.DB) : Prop :=
  map_Forall (fun _ r => (0 <= pg.p_stock_quantity r)%Z) (pg.products d).

(** The constraints the migration declares on the tables modelled: the
    CHECKs and INTEGER columns of [products], the CHECK and foreign key of
    [orders], the CHECKs, foreign keys, primary key and
    UNIQUE(order_id, product_id) of [order_items]. *)
Definition schema_ok (d : pg.DB) : Prop :=
  map_Forall (fun _ r => PrimFloat.ltb 0 (pg.p_price r) = true
                         /\ (0 <= pg.p_stock_quantity r < 2 ^ 31)%Z)
             (pg.products d)
  /\ map_Forall (fun _ o => PrimFloat.leb 0 (pg.o_total_amount o) = true
                            /\ pg.o_user_id o ∈ pg.users d)
                (pg.orders d)
  /\ Forall (fun i => (0 < pg.oi_quantity i < 2 ^ 31)%Z
                      /\ PrimFloat.leb 0 (pg.oi_unit_price i) = true
                      /\ is_Some (pg.orders d !! pg.oi_order_id i)
                      /\ is_Some (pg.products d !! pg.oi_product_id i))
            (pg.order_items d)
  /\ NoDup (map pg.oi_id (pg.order_items d))
  /\ NoDup (map (fun i => (pg.oi_order_id i, pg.oi_product_id i))
               (pg.order_items d)).

(** No connection failure is scheduled. *)
Definition healthy (w : World) : Prop := faults w = [].

(** The sum the specification asks for: over the item rows of an order,
    unit price times quantity, accumulated in [float64] in row order. *)
Definition sum_of_lines (rows : list pg.OrderItemRow) : float :=
  fold_left
    (fun acc r =>
       PrimFloat.add acc
         (PrimFloat.mul (pg.oi_unit_price r)
                        (golang.float64_of_int (pg.oi_quantity r))))
    rows 0%float.

(** The row that answers request [rq]: the product and quantity asked for,
    at the price the catalog [d] has for that product. *)
Definition answers (d : pg.DB) (rq : models.CreateOrderItemRequest)
    (r : pg.OrderItemRow) : Prop :=
  pg.oi_product_id r = models.Req_ProductID rq
  /\ pg.oi_quantity r = models.Req_Quantity rq
  /\ price_of d (models.Req_ProductID rq) = Some (pg.oi_unit_price r).


(** Whatever it returns, [m] leaves a world related by [R] to the one it
    started in. *)
Definition keeps (R : World -> World -> Prop) {A : Type} (m : M A) : Prop :=
  forall w, R w (snd (m w)).

(** A world whose stock is nowhere negative is followed by such a world. *)
Definition stock_kept (w w' : World) : Prop :=
  stock_nonneg (db w) -> stock_nonneg (db w').

(** Every error [m] can return satisfies [E]. *)
Definition raises (E : pkg.error -> Prop) {A : Type} (m : M A) : Prop :=
  forall w e w', m w = (Err e, w') -> E e.

(** The handler does not take [e] for a validation error. *)
Definition not_validation (e : pkg.error) : Prop :=
  pkg.errors_Is e pkg.ErrInvalidInput = false.

(** A healthy connection stays healthy. *)
Definition healthy_kept (w w' : World) : Prop := healthy w -> healthy w'.

(** The tables as the open transaction sees them. *)
Definition tx_view (w : World) : pg.DB := pg.apply_tx (tx w) (db w).

(** The committed tables satisfy the schema, and so do the tables as the
    open transaction sees them. *)
Definition consistent (w : World) : Prop :=
  schema_ok (db w) /\ schema_ok (tx_view w).

Definition consistency_kept (w w' : World) : Prop :=
  consistent w -> consistent w'.

(** The order ledger (and the users) are the same in both worlds. *)
Definition ledger_kept (w w' : World) : Prop :=
  pg.users (db w') = pg.users (db w)
  /\ pg.orders (db w') = pg.orders (db w)
  /\ pg.order_items (db w') = pg.order_items (db w).

(** Only the catalog may differ between the two worlds (and the schedule
    of failures). *)
Definition catalog_only (w w' : World) : Prop :=
  ledger_kept w w'
  /\ tx w' = tx w /\ ksuid_src w' = ksuid_src w /\ ksuid_n w' = ksuid_n w.

(** ** Predicates on answers and histories *)

(** The three answers a failed CreateOrder can get. *)
Definition CreateOrder_failure_answer (r : handler.Response) : Prop :=
  r = handler.mkResponse 404
        (handler.ErrorBody (handler.mkErrorResponse "NOT_FOUND"
                              "Resource not found"))
  \/ r = handler.mkResponse 400
           (handler.ErrorBody (handler.mkErrorResponse "INSUFFICIENT_STOCK"
                                 "One or more products are out of stock"))
  \/ r = handler.mkResponse 500
           (handler.ErrorBody (handler.mkErrorResponse "INTERNAL_ERROR"
                                 "An unexpected error occurred")).

(** The store is the same in both worlds. *)
Definition store_kept (w w' : World) : Prop := db w' = db w.

(** A store that satisfies the schema is followed by one that does. *)
Definition schema_kept (w w' : World) : Prop :=
  schema_ok (db w) -> schema_ok (db w').

(** The statuses from which [UpdateStatus] refuses to move. *)
Definition terminal (s : models.OrderStatus) : Prop :=
  s = models.StatusCancelled \/ s = models.StatusDelivered.

(** What may become of an order row: its user and total stay, and so does
    its status once it is terminal. *)
Definition evolves (row row' : pg.OrderRow) : Prop :=
  pg.o_user_id row' = pg.o_user_id row
  /\ pg.o_total_amount row' = pg.o_total_amount row
  /\ (terminal (pg.o_status row) -> pg.o_status row' = pg.o_status row).

(** Every order row of the first world is still there in the second,
    evolved. *)
Definition orders_evolve (w w' : World) : Prop :=
  forall id row,
    pg.orders (db w) !! id = Some row ->
    exists row', pg.orders (db w') !! id = Some row' /\ evolves row row'.

(** ** Stores and worlds to run the code on *)

Module example.

Fixpoint tally (n : nat) : string :=
  match n with
  | O => ""
  | S n' => "i" ++ tally n'
  end.

(** An id generator that never repeats itself. *)
Definition ksuid (n : nat) : string := "item-" ++ tally n.

Definition catalog : gmap string pg.ProductRow :=
  <["P" := pg.mkProductRow "pen" "" 10%float 5]>
    (<["Q" := pg.mkProductRow "quill" "" 2.5%float 1]> ∅).

(** Two users, two products, no order yet. *)
Definition store0 : pg.DB := pg.mkDB {["alice"; "bob"]} catalog ∅ [].

Definition world0 : World := mkWorld store0 pg.TxBuf_empty [] ksuid 0.

(** Alice's pending order [o1] of three pens and one quill. *)
Definition store1 : pg.DB :=
  pg.mkDB {["alice"; "bob"]}
    (<["P" := pg.mkProductRow "pen" "" 10%float 2]>
       (<["Q" := pg.mkProductRow "quill" "" 2.5%float 0]> ∅))
    (<["o1" := pg.mkOrderRow "alice" models.StatusPending 32.5%float]> ∅)
    [pg.mkOrderItemRow "i1" "o1" "P" 3 10%float;
     pg.mkOrderItemRow "i2" "o1" "Q" 1 2.5%float].

Definition world1 : World := mkWorld store1 pg.TxBuf_empty [] ksuid 0.

(** The same world, in which the seventh round trip to the server fails. *)
Definition world1_outage : World :=
  mkWorld store1 pg.TxBuf_empty
    [false; false; false; false; false; false; true] ksuid 0.

Definition item (id : string) (q : Z) : models.CreateOrderItemRequest :=
  models.mkCreateOrderItemRequest id q.

Definition cart (l : list models.CreateOrderItemRequest)
  : models.CreateOrderRequest :=
  models.mkCreateOrderRequest l.

Definition cart_PQ : models.CreateOrderRequest :=
cart [item "P" 3; item "Q" 1].

(** The world after Alice has ordered three pens and one quill. *)
Definition world0_ordered : World :=
snd (service.CreateOrder "alice" cart_PQ world0).

(** Alice's order under construction, and the world, once the loop of
    CreateOrder has processed three pens out of a cart of three items. *)
Definition after_pens : result models.Order * World :=
service.CreateOrder_loop 0 [item "P" 3]
  (models.mkOrder "" "alice" models.StatusPending 0%float
     (replicate 3 models.OrderItem_zero))
  (set_tx world0 pg.TxBuf_empty).

Definition order_after_pens : models.Order :=
match fst after_pens with
| Ok o => o
| Err _ => models.mkOrder "" "" models.StatusPending 0%float []
end.

Definition world_after_pens : World := snd after_pens.

(** The world after Alice has cancelled her order [o1]. *)
Definition world1_cancelled : World :=
snd (service.CancelOrder "o1" "alice" world1).

Definition cart_empty : models.CreateOrderRequest := cart [].



(** A product to add to the catalog, and one no catalog accepts. *)
Definition ink : models.CreateProductRequest :=
models.mkCreateProductRequest "ink" "black" 4%float 7.

Definition free_ink : models.CreateProductRequest :=
models.mkCreateProductRequest "ink" "black" 0%float 7.

(** The world after ink has been added to the catalog. *)
Definition world0_ink : World :=
snd (products_service.CreateProduct ink world0).

(** The world after the quill has been taken off the catalog. *)
Definition world0_no_quill : World :=
snd (products_service.DeleteProduct "Q" world0).

(** The world after the pen has become ink. *)
Definition world1_pen_is_ink : World :=
snd (service.UpdateProduct "P" ink world1).

(** A day at the shop: ink comes in, Alice orders, the quill goes out of
    the catalog or not, Bob tries to cancel Alice's order, the order is
    shipped, Alice cancels. *)
Definition day : list request :=
[DoCreateProduct ink;
 DoCreateOrder "alice" cart_PQ;
 DoDeleteProduct "Q";
 DoUpdateProduct "P" ink;
 DoCancelOrder "" "bob";
 DoUpdateStatus "" models.StatusShipped;
 DoGetOrderByID "";
 DoGetProductByID "P";
 DoCancelOrder "" "alice"].

(** What happens to Alice's order [o1]: it is delivered, then she tries
    to cancel it, then somebody tries to reopen it. *)
Definition o1_story : list request :=
[DoUpdateStatus "o1" models.StatusDelivered;
 DoCancelOrder "o1" "alice";
 DoUpdateStatus "o1" models.StatusPending].

End example.

(** * The scenario of the specification, run on the embedding

    Product [P] has stock 5 and price 10.  An order of three is created:
    total 30, stock 2.  A second order of three fails with insufficient
    stock, the stock stays 2.  The first order (its id is the empty string)
    is cancelled: stock 5, status cancelled.  Cancelling again fails with
    OrderNotPending. *)

Example specification_scenario :
  let buy := service.CreateOrder "alice" (example.cart [example.item "P" 3]) in
  let cancel := service.CancelOrder "" "alice" in
  let s1 := buy example.world0 in
  let s2 := buy (snd s1) in
  let s3 := cancel (snd s2) in
  let s4 := cancel (snd s3) in
  fst s1 = Ok tt
  /\ pg.o_total_amount <$> pg.orders (db (snd s1)) !! "" = Some 30%float
  /\ stock_of (db (snd s1)) "P" = Some 2%Z
  /\ fst s2 = Err pkg.ErrInsufficientStock
  /\ stock_of (db (snd s2)) "P" = Some 2%Z
  /\ fst s3 = Ok tt
  /\ stock_of (db (snd s3)) "P" = Some 5%Z
  /\ pg.o_status <$> pg.orders (db (snd s3)) !! "" = Some models.StatusCancelled
  /\ fst s4 = Err pkg.ErrOrderNotPending.
Proof. vm_compute. repeat split. Qed.

(** * Reasoning about computations in [M] *)

Lemma set_faults_same w : set_faults w (faults w) = w.
Proof. by destruct w. Qed.

Lemma set_db_same w : set_db w (db w) = w.
Proof. by destruct w. Qed.

Lemma set_tx_same w : set_tx w (tx w) = w.
Proof. by destruct w. Qed.

Lemma round_trip_healthy w : healthy w -> round_trip w = (false, w).
Proof.
  unfold healthy, round_trip. intros H. rewrite H. simpl.
  rewrite <- H. by rewrite set_faults_same.
Qed.

Lemma bind_Ok {A B} (m : M A) (k : A -> M B) w b w' :
  bind m k w = (Ok b, w') ->
  exists a w1, m w = (Ok a, w1) /\ k a w1 = (Ok b, w').
Proof.
  unfold bind. destruct (m w) as [[a|e] w1]; [eauto | discriminate].
Qed.

Lemma bind_Err {A B} (m : M A) (k : A -> M B) w e w' :
  bind m k w = (Err e, w') ->
  m w = (Err e, w') \/ exists a w1, m w = (Ok a, w1) /\ k a w1 = (Err e, w').
Proof.
  unfold bind. destruct (m w) as [[a|e0] w1]; [eauto | ].
  intros [= -> ->]. by left.
Qed.

Lemma bind_run_Ok {A B} (m : M A) (k : A -> M B) w a w1 :
  m w = (Ok a, w1) -> bind m k w = k a w1.
Proof. unfold bind. by intros ->. Qed.

Lemma bind_run_Err {A B} (m : M A) (k : A -> M B) w e w1 :
  m w = (Err e, w1) -> bind m k w = (Err e, w1).
Proof. unfold bind. by intros ->. Qed.

Lemma wrapf_Ok {A} msg (m : M A) w a w' :
  wrapf msg m w = (Ok a, w') -> m w = (Ok a, w').
Proof.
  unfold wrapf. destruct (m w) as [[a0|e] w1]; [by intros [= -> ->] | discriminate].
Qed.

Lemma wrapf_Err {A} msg (m : M A) w e w' :
  wrapf msg m w = (Err e, w') ->
  exists e0, e = pkg.Wrap msg e0 /\ m w = (Err e0, w').
Proof.
  unfold wrapf. destruct (m w) as [[a0|e0] w1]; [discriminate | ].
  intros [= <- ->]. eauto.
Qed.

Lemma wrapf_run_Ok {A} msg (m : M A) w a w1 :
  m w = (Ok a, w1) -> wrapf msg m w = (Ok a, w1).
Proof. unfold wrapf. by intros ->. Qed.

Lemma wrapf_run_Err {A} msg (m : M A) w e w1 :
  m w = (Err e, w1) -> wrapf msg m w = (Err (pkg.Wrap msg e), w1).
Proof. unfold wrapf. by intros ->. Qed.

(** ** Relations every step of a computation keeps *)

Section Keeps.

Variable R : World -> World -> Prop.
Hypothesis R_refl : forall w, R w w.
Hypothesis R_trans : forall w1 w2 w3, R w1 w2 -> R w2 w3 -> R w1 w3.
Hypothesis R_faults : forall w, R w (set_faults w (tail (faults w))).
Hypothesis R_begin : forall w, R w (set_tx w pg.TxBuf_empty).
Hypothesis R_insert_order :
  forall w o, R w (set_tx w (snd (pg.insert_order o (db w) (tx w)))).
Hypothesis R_insert_order_item :
  forall w i, R w (set_tx w (snd (pg.insert_order_item i (db w) (tx w)))).
Hypothesis R_ids :
  forall w, R w (mkWorld (db w) (tx w) (faults w) (ksuid_src w) (S (ksuid_n w))).
Hypothesis R_update_product :
  forall w p, R w (set_db w (snd (pg.update_product p (db w)))).
Hypothesis R_update_order_status :
  forall w id s, R w (set_db w (snd (pg.update_order_status id s (db w)))).
Hypothesis R_commit :
  forall w,
    R w (set_tx (set_db w (pg.apply_tx (tx w) (db w))) pg.TxBuf_empty).

Lemma keeps_ret {A} (a : A) : keeps R (ret a).
Proof using R_refl. intros w. apply R_refl. Qed.

Lemma keeps_raise {A} e : keeps R (@raise A e).
Proof using R_refl. intros w. apply R_refl. Qed.

Lemma keeps_bind {A B} (m : M A) (k : A -> M B) :
  keeps R m -> (forall a, keeps R (k a)) -> keeps R (bind m k).
Proof using R_trans.
  intros Hm Hk w. unfold bind. specialize (Hm w).
  destruct (m w) as [[a|e] w1]; simpl in *; [ | done].
  eapply R_trans; [exact Hm | apply Hk].
Qed.

Lemma keeps_wrapf {A} msg (m : M A) : keeps R m -> keeps R (wrapf msg m).
Proof.
  intros Hm w. unfold wrapf. specialize (Hm w).
  by destruct (m w) as [[a|e] w1].
Qed.

Lemma keeps_scan {A} (q : World -> (pg.pgerr + A) * World) on_err :
  (forall w, R w (snd (q w))) -> keeps R (scan q on_err).
Proof.
  intros Hq w. unfold scan. specialize (Hq w).
  by destruct (q w) as [[e|a] w1].
Qed.

Lemma keeps_pool_exec {A} (stmt : pg.DB -> (pg.pgerr + A) * pg.DB) :
  (forall w, R w (set_db w (snd (stmt (db w))))) ->
  forall w, R w (snd (pool_exec stmt w)).
Proof using R_trans R_faults.
  intros Hs w. unfold pool_exec, round_trip.
  destruct (hd false (faults w)); simpl; [apply R_faults | ].
  specialize (Hs (set_faults w (tail (faults w)))). simpl in Hs.
  destruct (stmt (db w)) as [r d]; simpl in *.
  eapply R_trans; [apply R_faults | exact Hs].
Qed.

Lemma keeps_pool_read {A} (f : pg.DB -> pg.pgerr + A) :
  forall w, R w (snd (pool_exec (fun d => (f d, d)) w)).
Proof using R_refl R_trans R_faults.
  apply keeps_pool_exec. intros w. simpl. rewrite set_db_same. apply R_refl.
Qed.

Lemma keeps_tx_exec {A}
    (stmt : pg.DB -> pg.TxBuf -> (pg.pgerr + A) * pg.TxBuf) :
  (forall w, R w (set_tx w (snd (stmt (db w) (tx w))))) ->
  forall w, R w (snd (tx_exec stmt w)).
Proof using R_trans R_faults.
  intros Hs w. unfold tx_exec, round_trip.
  destruct (hd false (faults w)); simpl; [apply R_faults | ].
  specialize (Hs (set_faults w (tail (faults w)))). simpl in Hs.
  destruct (stmt (db w) (tx w)) as [r t]; simpl in *.
  eapply R_trans; [apply R_faults | exact Hs].
Qed.

Lemma keeps_GenerateID : keeps R GenerateID.
Proof using R_ids. intros w. apply R_ids. Qed.

Lemma keeps_GetProductByID id : keeps R (repository.GetProductByID id).
Proof using R_refl R_trans R_faults.
  apply keeps_scan, keeps_pool_read.
Qed.

Lemma keeps_UpdateProduct p : keeps R (repository.UpdateProduct p).
Proof using R_trans R_faults R_update_product.
  apply keeps_scan, keeps_pool_exec. intros w. apply R_update_product.
Qed.

Lemma keeps_GetOrderByID id : keeps R (repository.GetOrderByID id).
Proof using R_refl R_trans R_faults.
  unfold repository.GetOrderByID.
  apply keeps_bind; [apply keeps_scan, keeps_pool_read | intros o].
  apply keeps_bind; [apply keeps_scan, keeps_pool_read | intros l].
  apply keeps_ret.
Qed.

Lemma keeps_UpdateOrderStatus id s : keeps R (repository.UpdateOrderStatus id s).
Proof using R_trans R_faults R_update_order_status.
  apply keeps_scan, keeps_pool_exec. intros w. apply R_update_order_status.
Qed.

Lemma keeps_CreateOrder_items oid items :
  keeps R (repository.CreateOrder_items oid items).
Proof using R_refl R_trans R_faults R_insert_order_item R_ids.
  induction items as [|i items IH]; simpl; [apply keeps_ret | ].
  apply keeps_bind; [apply keeps_GenerateID | intros id].
  apply keeps_bind; [ | intros _].
  { apply keeps_scan, keeps_tx_exec. intros w. apply R_insert_order_item. }
  apply keeps_bind; [exact IH | intros l]. apply keeps_ret.
Qed.

Lemma keeps_repository_CreateOrder t o : keeps R (repository.CreateOrder t o).
Proof using R_refl R_trans R_faults R_insert_order R_insert_order_item R_ids.
  unfold repository.CreateOrder.
  apply keeps_bind; [ | intros _].
  { apply keeps_scan, keeps_tx_exec. intros w. apply R_insert_order. }
  apply keeps_bind; [apply keeps_CreateOrder_items | intros l].
  apply keeps_ret.
Qed.

Lemma keeps_BeginTx : keeps R repository.BeginTx.
Proof using R_trans R_faults R_begin.
  intros w. unfold repository.BeginTx, round_trip.
  destruct (hd false (faults w)); simpl; [apply R_faults | ].
  eapply R_trans; [apply R_faults | apply R_begin].
Qed.

Lemma keeps_Rollback t : keeps R (repository.Rollback t).
Proof using R_trans R_faults R_begin.
  intros w. unfold repository.Rollback, round_trip.
  destruct (hd false (faults w)); simpl;
    (eapply R_trans; [apply R_faults | apply R_begin]).
Qed.

Lemma keeps_Commit t : keeps R (repository.Commit t).
Proof using R_trans R_faults R_begin R_commit.
  intros w. unfold repository.Commit, round_trip.
  destruct (hd false (faults w)); simpl.
  - eapply R_trans; [apply R_faults | apply R_begin].
  - eapply R_trans; [apply R_faults | ].
    exact (R_commit (set_faults w (tail (faults w)))).
Qed.

Lemma keeps_WithTransaction fn :
  (forall t, keeps R (fn t)) -> keeps R (repository.WithTransaction fn).
Proof using R_trans R_faults R_begin R_commit.
  intros Hfn. unfold repository.WithTransaction.
  apply keeps_bind; [apply keeps_BeginTx | intros t w].
  specialize (Hfn t w). destruct (fn t w) as [[[]|e] w1]; simpl in *.
  - eapply R_trans; [exact Hfn | apply keeps_Commit].
  - pose proof (keeps_Rollback t w1) as Hrb.
    destruct (repository.Rollback t w1) as [[[]|rb] w2]; simpl in *;
      (eapply R_trans; [exact Hfn | exact Hrb]).
Qed.

(** A transaction that fails never reaches the effect of [Commit]. *)
Lemma failed_WithTransaction fn w e w' :
  (forall t, keeps R (fn t)) ->
  repository.WithTransaction fn w = (Err e, w') -> R w w'.
Proof using R_trans R_faults R_begin.
  intros Hfn. unfold repository.WithTransaction. intros H.
  apply bind_Err in H as [H | (t & w1 & Hb & H)].
  - pose proof (keeps_BeginTx w) as Hk. by rewrite H in Hk.
  - pose proof (keeps_BeginTx w) as Hk. rewrite Hb in Hk. simpl in Hk.
    eapply R_trans; [exact Hk | ].
    specialize (Hfn t w1). destruct (fn t w1) as [[[]|e1] w2]; simpl in *.
    + unfold repository.Commit, round_trip in H.
      destruct (hd false (faults w2)); simpl in H; [ | discriminate].
      injection H as _ <-.
      eapply R_trans; [exact Hfn | ].
      eapply R_trans; [apply R_faults | apply R_begin].
    + pose proof (keeps_Rollback t w2) as Hrb.
      destruct (repository.Rollback t w2) as [[[]|rb] w3]; simpl in *;
        injection H as _ <-; (eapply R_trans; [exact Hfn | exact Hrb]).
Qed.

Lemma keeps_CreateOrder_loop items : forall i o,
  keeps R (service.CreateOrder_loop i items o).
Proof using R_refl R_trans R_faults R_update_product.
  induction items as [|it items IH]; intros i o; simpl; [apply keeps_ret | ].
  apply keeps_bind; [apply keeps_wrapf, keeps_GetProductByID | intros p].
  destruct (_ <? _)%Z; [apply keeps_raise | ].
  apply keeps_bind; [apply keeps_wrapf, keeps_UpdateProduct | intros _].
  apply IH.
Qed.

Lemma keeps_CreateOrder_fn userID req t :
  keeps R (service.CreateOrder_fn userID req t).
Proof using R_refl R_trans R_faults R_insert_order R_insert_order_item R_ids
            R_update_product.
  unfold service.CreateOrder_fn.
  apply keeps_bind; [apply keeps_CreateOrder_loop | intros o].
  apply keeps_bind; [apply keeps_wrapf, keeps_repository_CreateOrder | intros _].
  apply keeps_ret.
Qed.

Lemma keeps_CancelOrder_loop items : keeps R (service.CancelOrder_loop items).
Proof using R_refl R_trans R_faults R_update_product.
  induction items as [|it items IH]; simpl; [apply keeps_ret | ].
  apply keeps_bind; [apply keeps_wrapf, keeps_GetProductByID | intros p].
  apply keeps_bind; [apply keeps_wrapf, keeps_UpdateProduct | intros _].
  apply IH.
Qed.

Lemma keeps_CancelOrder_fn id o t : keeps R (service.CancelOrder_fn id o t).
Proof using R_refl R_trans R_faults R_update_product R_update_order_status.
  unfold service.CancelOrder_fn.
  apply keeps_bind; [apply keeps_wrapf, keeps_UpdateOrderStatus | intros _].
  apply keeps_CancelOrder_loop.
Qed.

Lemma keeps_service_CreateOrder userID req :
  keeps R (service.CreateOrder userID req).
Proof using R_refl R_trans R_faults R_begin R_insert_order
            R_insert_order_item R_ids R_update_product R_commit.
  apply keeps_WithTransaction. intros t. apply keeps_CreateOrder_fn.
Qed.

Lemma keeps_service_CancelOrder id userID :
  keeps R (service.CancelOrder id userID).
Proof using R_refl R_trans R_faults R_begin R_update_product
            R_update_order_status R_commit.
  unfold service.CancelOrder.
  apply keeps_bind; [apply keeps_wrapf, keeps_GetOrderByID | intros o].
  destruct (negb _); [apply keeps_raise | ].
  destruct (negb _); [apply keeps_raise | ].
  apply keeps_WithTransaction. intros t. apply keeps_CancelOrder_fn.
Qed.

End Keeps.

(** ** Stock never goes negative *)

Lemma update_product_stock_nonneg p d :
  stock_nonneg d -> stock_nonneg (snd (pg.update_product p d)).
Proof.
  intros Hd. unfold pg.update_product.
  destruct (negb _); [done | ].
  destruct (pg.products d !! _); [ | done].
  destruct (PrimFloat.ltb _ _); simpl; [ | done].
  destruct (Z.leb_spec 0 (models.Product_StockQuantity p)); simpl; [ | done].
  intros id r. simpl. rewrite lookup_insert.
  case_decide; [ | apply Hd]. by intros [= <-].
Qed.

Lemma update_order_status_products id s d :
  pg.products (snd (pg.update_order_status id s d)) = pg.products d.
Proof. unfold pg.update_order_status. by destruct (pg.orders d !! id). Qed.

Lemma stock_kept_by_calls (c : call) (w : World) : stock_kept w (perform c w).
Proof.
  assert (Hrefl : forall w, stock_kept w w) by (by intros ? ?).
  assert (Htrans : forall w1 w2 w3,
             stock_kept w1 w2 -> stock_kept w2 w3 -> stock_kept w1 w3)
    by (unfold stock_kept; auto).
  assert (Hfaults : forall w, stock_kept w (set_faults w (tail (faults w))))
    by (by intros ? ?).
  assert (Hbegin : forall w, stock_kept w (set_tx w pg.TxBuf_empty))
    by (by intros ? ?).
  assert (Hio : forall w o, stock_kept w
            (set_tx w (snd (pg.insert_order o (db w) (tx w)))))
    by (by intros ? ? ?).
  assert (Hii : forall w i, stock_kept w
            (set_tx w (snd (pg.insert_order_item i (db w) (tx w)))))
    by (by intros ? ? ?).
  assert (Hids : forall w, stock_kept w
            (mkWorld (db w) (tx w) (faults w) (ksuid_src w) (S (ksuid_n w))))
    by (by intros ? ?).
  assert (Hup : forall w p,
             stock_kept w (set_db w (snd (pg.update_product p (db w)))))
    by (intros ? ? ?; by apply update_product_stock_nonneg).
  assert (Hst : forall w id s,
             stock_kept w (set_db w (snd (pg.update_order_status id s (db w))))).
  { intros w0 id s H. unfold stock_nonneg. simpl.
    by rewrite update_order_status_products. }
  assert (Hcommit : forall w, stock_kept w
            (set_tx (set_db w (pg.apply_tx (tx w) (db w))) pg.TxBuf_empty))
    by (by intros ? ?).
  destruct c as [userID req | id userID]; simpl.
  - by apply (keeps_service_CreateOrder stock_kept).
  - by apply (keeps_service_CancelOrder stock_kept).
Qed.

(** C4.  Along every sequence of CreateOrder and CancelOrder calls, run one
    at a time from a store in which every product has [stock_quantity >= 0],
    every product still has [stock_quantity >= 0] after every call. *)
Theorem stock_never_negative (cs : list call) (w : World) :
  stock_nonneg (db w) ->
  Forall (fun w' => stock_nonneg (db w')) (trace cs w).
Proof.
  revert w. induction cs as [|c cs IH]; intros w Hw; simpl; constructor.
  - by apply stock_kept_by_calls.
  - apply IH. by apply stock_kept_by_calls.
Qed.

Lemma stock_never_negative_witness :
  stock_nonneg (db example.world0)
  /\ Forall (fun w' => stock_nonneg (db w'))
       (trace [CallCreateOrder "alice" (example.cart [example.item "P" 3]);
               CallCreateOrder "bob" (example.cart [example.item "P" 3]);
               CallCancelOrder "" "alice"]
              example.world0).
Proof.
  assert (H : stock_nonneg (db example.world0)).
  { apply (bool_decide_unpack _). vm_compute. exact I. }
  split; [exact H | exact (stock_never_negative _ _ H)].
Defined.

(** ** What the calls do while the connection is healthy *)

Lemma pool_exec_healthy {A} (stmt : pg.DB -> (pg.pgerr + A) * pg.DB) w :
  healthy w ->
  pool_exec stmt w = (fst (stmt (db w)), set_db w (snd (stmt (db w)))).
Proof.
  intros H. unfold pool_exec. rewrite (round_trip_healthy _ H).
  by destruct (stmt (db w)).
Qed.

Lemma tx_exec_healthy {A}
    (stmt : pg.DB -> pg.TxBuf -> (pg.pgerr + A) * pg.TxBuf) w :
  healthy w ->
  tx_exec stmt w = (fst (stmt (db w) (tx w)), set_tx w (snd (stmt (db w) (tx w)))).
Proof.
  intros H. unfold tx_exec. rewrite (round_trip_healthy _ H).
  by destruct (stmt (db w) (tx w)).
Qed.

Lemma GetProductByID_healthy id w r :
  healthy w -> pg.products (db w) !! id = Some r ->
  repository.GetProductByID id w =
    (Ok (models.mkProduct id (pg.p_name r) (pg.p_description r) (pg.p_price r)
                          (pg.p_stock_quantity r)), w).
Proof.
  intros H Hr. unfold repository.GetProductByID, scan.
  rewrite (pool_exec_healthy _ _ H). simpl.
  unfold pg.select_product. rewrite Hr. by rewrite set_db_same.
Qed.

Lemma GetProductByID_missing id w :
  healthy w -> pg.products (db w) !! id = None ->
  repository.GetProductByID id w = (Err pkg.ErrNotFound, w).
Proof.
  intros H Hr. unfold repository.GetProductByID, scan.
  rewrite (pool_exec_healthy _ _ H). simpl.
  unfold pg.select_product. rewrite Hr. by rewrite set_db_same.
Qed.


Lemma GetOrderByID_healthy id w row :
  healthy w -> pg.orders (db w) !! id = Some row ->
  repository.GetOrderByID id w =
    (Ok (models.mkOrder id (pg.o_user_id row) (pg.o_status row)
           (pg.o_total_amount row) (pg.select_order_items id (db w))), w).
Proof.
  intros H Hr. unfold repository.GetOrderByID, bind, scan.
  rewrite (pool_exec_healthy _ _ H). simpl.
  unfold pg.select_order. rewrite Hr. rewrite set_db_same.
  rewrite (pool_exec_healthy _ _ H). simpl. by rewrite set_db_same.
Qed.


Lemma BeginTx_healthy w :
  healthy w ->
  repository.BeginTx w = (Ok repository.TheTx, set_tx w pg.TxBuf_empty).
Proof.
  intros H. unfold repository.BeginTx. by rewrite (round_trip_healthy _ H).
Qed.

Lemma Rollback_healthy t w :
  healthy w -> repository.Rollback t w = (Ok tt, set_tx w pg.TxBuf_empty).
Proof.
  intros H. unfold repository.Rollback. by rewrite (round_trip_healthy _ H).
Qed.

Lemma Commit_healthy t w :
  healthy w ->
  repository.Commit t w =
    (Ok tt, set_tx (set_db w (pg.apply_tx (tx w) (db w))) pg.TxBuf_empty).
Proof.
  intros H. unfold repository.Commit. by rewrite (round_trip_healthy _ H).
Qed.

(** ** Status updates *)



(** ** Failed calls and what survives them *)

Lemma ledger_kept_refl w : ledger_kept w w.
Proof. by repeat split. Qed.

Lemma ledger_kept_trans w1 w2 w3 :
  ledger_kept w1 w2 -> ledger_kept w2 w3 -> ledger_kept w1 w3.
Proof.
  unfold ledger_kept. intros (-> & -> & ->) (-> & -> & ->). by repeat split.
Qed.

Lemma update_product_ledger p d :
  pg.users (snd (pg.update_product p d)) = pg.users d
  /\ pg.orders (snd (pg.update_product p d)) = pg.orders d
  /\ pg.order_items (snd (pg.update_product p d)) = pg.order_items d.
Proof.
  unfold pg.update_product.
  destruct (negb _); [done | ].
  destruct (pg.products d !! _); [ | done].
  by destruct (_ && _).
Qed.

(** A CreateOrder that fails leaves no order row and no order item row
    behind: these are written through the transaction only. *)
Lemma failed_CreateOrder_ledger userID req w e w' :
  service.CreateOrder userID req w = (Err e, w') -> ledger_kept w w'.
Proof.
  apply (failed_WithTransaction ledger_kept).
  - apply ledger_kept_trans.
  - by intros w0.
  - by intros w0.
  - intros t. apply keeps_CreateOrder_fn.
    + apply ledger_kept_refl.
    + apply ledger_kept_trans.
    + by intros w0.
    + by intros w0 o.
    + by intros w0 i.
    + by intros w0.
    + intros w0 p. apply update_product_ledger.
Qed.

(** C1, where the code departs from it.  Alice orders three pens and one
    unit of a product that does not exist.  The call fails with NotFound on
    the second item, no order row and no item row is written, but the
    decrement of the pens' stock, made through the pool and not through the
    transaction, survives the rollback: the stock is 2, not 5. *)
Theorem CreateOrder_failure_keeps_decrement :
  let w := example.world0 in
  let out :=
    service.CreateOrder "alice"
      (example.cart [example.item "P" 3; example.item "R" 1]) w in
  fst out = Err (pkg.Wrap "getting product R" pkg.ErrNotFound)
  /\ stock_of (db w) "P" = Some 5%Z
  /\ stock_of (db (snd out)) "P" = Some 2%Z
  /\ pg.orders (db (snd out)) = pg.orders (db w)
  /\ pg.order_items (db (snd out)) = pg.order_items (db w)
  /\ db (snd out) <> db w.
Proof.
  vm_compute. repeat split. intros H. discriminate H.
Qed.


(** ** What a successful call has done *)

Lemma scan_pool_exec_Ok {A} (stmt : pg.DB -> (pg.pgerr + A) * pg.DB)
    on_err w a w' :
  scan (pool_exec stmt) on_err w = (Ok a, w') ->
  exists d, stmt (db w) = (inr a, d)
            /\ w' = set_db (set_faults w (tail (faults w))) d.
Proof.
  unfold scan, pool_exec, round_trip.
  destruct (hd false (faults w)); simpl; [discriminate | ].
  destruct (stmt (db w)) as [[e|a0] d]; [discriminate | ].
  intros [= -> <-]. eauto.
Qed.

Lemma scan_tx_exec_Ok {A}
    (stmt : pg.DB -> pg.TxBuf -> (pg.pgerr + A) * pg.TxBuf) on_err w a w' :
  scan (tx_exec stmt) on_err w = (Ok a, w') ->
  exists t, stmt (db w) (tx w) = (inr a, t)
            /\ w' = set_tx (set_faults w (tail (faults w))) t.
Proof.
  unfold scan, tx_exec, round_trip.
  destruct (hd false (faults w)); simpl; [discriminate | ].
  destruct (stmt (db w) (tx w)) as [[e|a0] t]; [discriminate | ].
  intros [= -> <-]. eauto.
Qed.

Lemma GetProductByID_Ok id w p w' :
  repository.GetProductByID id w = (Ok p, w') ->
  exists r, pg.products (db w) !! id = Some r
            /\ p = models.mkProduct id (pg.p_name r) (pg.p_description r)
                     (pg.p_price r) (pg.p_stock_quantity r)
            /\ w' = set_faults w (tail (faults w)).
Proof.
  intros H. apply scan_pool_exec_Ok in H as (d & Hs & ->).
  unfold pg.select_product in Hs.
  destruct (pg.products (db w) !! id) as [r|]; [ | discriminate].
  injection Hs as <- <-. exists r. repeat split.
Qed.

Lemma update_product_Ok p d d' :
  pg.update_product p d = (inr tt, d') ->
  is_Some (pg.products d !! models.Product_ID p)
  /\ (0 <= models.Product_StockQuantity p < 2 ^ 31)%Z
  /\ d' = pg.set_products d
            (<[models.Product_ID p :=
                 pg.mkProductRow (models.Product_Name p)
                   (models.Product_Description p) (models.Product_Price p)
                   (models.Product_StockQuantity p)]> (pg.products d)).
Proof.
  unfold pg.update_product, pg.int4.
  destruct (Z.leb_spec (- 2 ^ 31) (models.Product_StockQuantity p));
    simpl; [ | discriminate].
  destruct (Z.ltb_spec (models.Product_StockQuantity p) (2 ^ 31));
    simpl; [ | discriminate].
  destruct (pg.products d !! _) as [r|]; [ | discriminate].
  destruct (PrimFloat.ltb _ _); simpl; [ | discriminate].
  destruct (Z.leb_spec 0 (models.Product_StockQuantity p));
    simpl; [ | discriminate].
  intros [= <-]. eauto.
Qed.

Lemma UpdateProduct_Ok p w w' :
  repository.UpdateProduct p w = (Ok tt, w') ->
  exists d, pg.update_product p (db w) = (inr tt, d)
            /\ w' = set_db (set_faults w (tail (faults w))) d.
Proof. apply scan_pool_exec_Ok. Qed.

Lemma insert_order_Ok o d t t' :
  pg.insert_order o d t = (inr tt, t') ->
  pg.orders d !! models.Order_ID o = None
  /\ pg.tx_orders t !! models.Order_ID o = None
  /\ models.Order_UserID o ∈ pg.users d
  /\ t' = pg.mkTxBuf
            (<[models.Order_ID o :=
                 pg.mkOrderRow (models.Order_UserID o) (models.Order_Status o)
                               (models.Order_TotalAmount o)]> (pg.tx_orders t))
            (pg.tx_order_items t).
Proof.
  unfold pg.insert_order.
  destruct (negb (PrimFloat.leb _ _)); [discriminate | ].
  destruct (bool_decide_reflect (is_Some (pg.orders d !! models.Order_ID o)))
    as [|H1]; simpl; [discriminate | ].
  destruct (bool_decide_reflect (is_Some (pg.tx_orders t !! models.Order_ID o)))
    as [|H2]; simpl; [discriminate | ].
  destruct (bool_decide_reflect (models.Order_UserID o ∈ pg.users d))
    as [H3|]; simpl; [ | discriminate].
  intros [= <-]. repeat split; [ | | done].
  - by apply eq_None_not_Some.
  - by apply eq_None_not_Some.
Qed.

Lemma insert_order_item_Ok i d t t' :
  pg.insert_order_item i d t = (inr tt, t') ->
  (0 < models.OrderItem_Quantity i)%Z
  /\ t' = pg.mkTxBuf (pg.tx_orders t) (pg.tx_order_items t ++ [pg.item_row i]).
Proof.
  unfold pg.insert_order_item.
  destruct (negb (pg.int4 _)); [discriminate | ].
  destruct (Z.ltb_spec 0 (models.OrderItem_Quantity i)); simpl;
    [ | discriminate].
  destruct (negb (PrimFloat.leb _ _)); [discriminate | ].
  destruct (_ || _); [discriminate | ].
  destruct (_ || _); [discriminate | ].
  by intros [= <-].
Qed.

Lemma keeps_catalog_only_loop i items o :
  keeps catalog_only (service.CreateOrder_loop i items o).
Proof.
  apply keeps_CreateOrder_loop.
  - intros w. by repeat split.
  - unfold catalog_only. intros w1 w2 w3 (L1 & -> & -> & ->) (L2 & -> & -> & ->).
    split; [by eapply ledger_kept_trans | done].
  - intros w. by repeat split.
  - intros w p. split; [apply update_product_ledger | done].
Qed.

Lemma update_keeps_prices d id r name descr stock id' :
  pg.products d !! id = Some r ->
  price_of (pg.set_products d
              (<[id := pg.mkProductRow name descr (pg.p_price r) stock]>
                 (pg.products d))) id'
  = price_of d id'.
Proof.
  intros Hr. unfold price_of. simpl. rewrite lookup_insert.
  case_decide; [subst; by rewrite Hr | done].
Qed.

(** The loop of CreateOrder, when it runs to its end: slot [i], [i+1], ...
    of the order receive the requested products and quantities at the
    catalog's prices, and the total grows by price times quantity, item by
    item. *)
Lemma CreateOrder_loop_Ok items : forall i o w o' w' filled,
  service.CreateOrder_loop i items o w = (Ok o', w') ->
  models.Order_Items o
    = (filled ++ replicate (length items) models.OrderItem_zero)%list ->
  length filled = i ->
  exists resolved,
    models.Order_Items o' = (filled ++ resolved)%list
    /\ Forall2
         (fun rq it =>
            it = models.mkOrderItem "" "" (models.Req_ProductID rq)
                   (models.Req_Quantity rq) (models.OrderItem_UnitPrice it)
            /\ price_of (db w) (models.Req_ProductID rq)
               = Some (models.OrderItem_UnitPrice it))
         items resolved
    /\ models.Order_TotalAmount o'
       = fold_left
           (fun acc it =>
              PrimFloat.add acc
                (PrimFloat.mul (models.OrderItem_UnitPrice it)
                   (golang.float64_of_int (models.OrderItem_Quantity it))))
           resolved (models.Order_TotalAmount o)
    /\ models.Order_ID o' = models.Order_ID o
    /\ models.Order_UserID o' = models.Order_UserID o
    /\ models.Order_Status o' = models.Order_Status o
    /\ (forall id, price_of (db w') id = price_of (db w) id).
Proof.
  induction items as [|rq items IH]; intros i o w o' w' filled H Hitems Hlen.
  - injection H as <- <-. exists []. simpl in Hitems.
    rewrite Hitems. repeat split; auto.
  - simpl in H.
    apply bind_Ok in H as (p & w1 & Hget & H).
    apply wrapf_Ok, GetProductByID_Ok in Hget as (r & Hr & -> & ->).
    simpl in H.
    destruct (_ <? _)%Z; [discriminate | ].
    apply bind_Ok in H as ([] & w2 & Hup & H).
    apply wrapf_Ok, UpdateProduct_Ok in Hup as (d & Hup & ->).
    apply update_product_Ok in Hup as (_ & _ & ->). simpl in H.
    eapply (IH _ _ _ _ _
              (filled ++ [models.mkOrderItem "" "" (models.Req_ProductID rq)
                            (models.Req_Quantity rq) (pg.p_price r)])%list)
      in H as (resolved & HI & HF & HT & Hid & Hu & Hs & Hp).
    + exists (models.mkOrderItem "" "" (models.Req_ProductID rq)
                (models.Req_Quantity rq) (pg.p_price r) :: resolved).
      simpl in *. rewrite <- (assoc_L (++)) in HI.
      repeat split; auto.
      * constructor.
        -- split; [done | ]. unfold price_of. by rewrite Hr.
        -- eapply Forall2_impl; [exact HF | ].
           intros rq' it [Hit Hprice]. split; [done | ].
           by rewrite update_keeps_prices in Hprice.
      * intros id. rewrite Hp. by apply update_keeps_prices.
    + simpl. rewrite Hitems. simpl.
      rewrite insert_app_r_alt by lia.
      replace (i - length filled)%nat with 0%nat by lia.
      simpl. by rewrite <- (assoc_L (++)).
    + rewrite length_app. simpl. lia.
Qed.

Lemma fold_left_rows (g : nat -> models.OrderItem -> models.OrderItem) l :
  forall acc,
  (forall k it, models.OrderItem_UnitPrice (g k it) = models.OrderItem_UnitPrice it
                /\ models.OrderItem_Quantity (g k it) = models.OrderItem_Quantity it) ->
  fold_left
    (fun acc r =>
       PrimFloat.add acc
         (PrimFloat.mul (pg.oi_unit_price r)
                        (golang.float64_of_int (pg.oi_quantity r))))
    (map pg.item_row (imap g l)) acc
  = fold_left
      (fun acc it =>
         PrimFloat.add acc
           (PrimFloat.mul (models.OrderItem_UnitPrice it)
              (golang.float64_of_int (models.OrderItem_Quantity it))))
      l acc.
Proof.
  revert g. induction l as [|it l IH]; intros g acc Hg; [done | ].
  rewrite imap_cons. simpl.
  destruct (Hg 0%nat it) as [-> ->].
  apply IH. intros k it'. apply Hg.
Qed.

(** The item inserts of the repository, when they all succeed: the k-th
    item receives the k-th next draw of the generator and the order's id,
    and one row per item joins the transaction's buffer. *)
Lemma CreateOrder_items_Ok oid items : forall w items' w',
  repository.CreateOrder_items oid items w = (Ok items', w') ->
  db w' = db w
  /\ pg.tx_orders (tx w') = pg.tx_orders (tx w)
  /\ pg.tx_order_items (tx w')
     = (pg.tx_order_items (tx w) ++ map pg.item_row items')%list
  /\ items'
     = imap (fun k it =>
               models.OrderItem_set_ids it (ksuid_src w (ksuid_n w + k)) oid)
            items
  /\ Forall (fun it => (0 < models.OrderItem_Quantity it)%Z) items.
Proof.
  induction items as [|it items IH]; intros w items' w' H.
  - injection H as <- <-. simpl. rewrite app_nil_r. by repeat split.
  - simpl in H.
    apply bind_Ok in H as (id & w1 & Hid & H).
    unfold GenerateID in Hid. injection Hid as <- <-.
    apply bind_Ok in H as ([] & w2 & Hins & H).
    apply scan_tx_exec_Ok in Hins as (t & Hins & ->).
    apply insert_order_item_Ok in Hins as (Hq & ->). simpl in *.
    apply bind_Ok in H as (rest & w3 & Hrest & H).
    injection H as <- <-.
    apply IH in Hrest as (Hdb & Hto & Hti & Hrest & HF). simpl in *.
    rewrite Hdb, Hto, Hti, Hrest.
    rewrite <- (assoc_L (++)). simpl.
    replace (ksuid_n w + 0)%nat with (ksuid_n w) by lia.
    repeat split; [ | by constructor].
    f_equal. apply imap_ext. intros k it' _. simpl.
    by replace (S (ksuid_n w + k)) with (ksuid_n w + S k)%nat by lia.
Qed.

Lemma WithTransaction_Ok fn w w' :
  repository.WithTransaction fn w = (Ok tt, w') ->
  exists w2,
    fn repository.TheTx
       (set_tx (set_faults w (tail (faults w))) pg.TxBuf_empty) = (Ok tt, w2)
    /\ db w' = pg.apply_tx (tx w2) (db w2).
Proof.
  unfold repository.WithTransaction. intros H.
  apply bind_Ok in H as (t & w1 & Hb & H).
  unfold repository.BeginTx, round_trip in Hb.
  destruct (hd false (faults w)); [discriminate | ].
  injection Hb as <- <-.
  destruct (fn _ _) as [[[]|e] w2].
  - exists w2. split; [done | ].
    unfold repository.Commit, round_trip in H.
    destruct (hd false (faults w2)); [discriminate | ].
    by injection H as <-.
  - by destruct (repository.Rollback _ _) as [[[]|rb] w3].
Qed.

Lemma rows_lookup (src : nat -> string) (n : nat) (oid : string)
    (l : list models.OrderItem) k r :
  map pg.item_row
      (imap (fun k it => models.OrderItem_set_ids it (src (n + k)%nat) oid) l)
    !! k = Some r ->
  exists it,
    l !! k = Some it
    /\ r = pg.mkOrderItemRow (src (n + k)%nat) oid
             (models.OrderItem_ProductID it) (models.OrderItem_Quantity it)
             (models.OrderItem_UnitPrice it).
Proof.
  rewrite list_lookup_fmap, list_lookup_imap.
  destruct (l !! k) as [it|]; [ | discriminate].
  simpl. intros [= <-]. by exists it.
Qed.

(** What a successful CreateOrder has written: one order row under the
    empty id, and one item row per request. *)
Lemma CreateOrder_Ok userID req w w' :
  service.CreateOrder userID req w = (Ok tt, w') ->
  exists rows,
    pg.orders (db w) !! "" = None
    /\ userID ∈ pg.users (db w)
    /\ pg.orders (db w')
       = <["" := pg.mkOrderRow userID models.StatusPending (sum_of_lines rows)]>
           (pg.orders (db w))
    /\ pg.order_items (db w') = (pg.order_items (db w) ++ rows)%list
    /\ pg.users (db w') = pg.users (db w)
    /\ Forall2 (answers (db w)) (models.Req_Items req) rows
    /\ (forall k r, rows !! k = Some r ->
          pg.oi_id r = ksuid_src w (ksuid_n w + k)%nat /\ pg.oi_order_id r = "")
    /\ Forall (fun r => (0 < pg.oi_quantity r)%Z) rows
    /\ (forall id, price_of (db w') id = price_of (db w) id).
Proof.
  intros H. apply WithTransaction_Ok in H as (w2 & H & Hdb).
  unfold service.CreateOrder_fn in H.
  apply bind_Ok in H as (o & wa & Hloop & H).
  apply bind_Ok in H as (o2 & wb & Hrepo & H).
  injection H as <-.
  match type of Hloop with
  | service.CreateOrder_loop _ _ ?o0 ?w0 = _ =>
      pose proof (keeps_catalog_only_loop 0 (models.Req_Items req) o0 w0) as Hk
  end.
  rewrite Hloop in Hk. simpl in Hk.
  destruct Hk as ((Hu & Ho & Hi) & Htx & Hsrc & Hn). simpl in *.
  apply (CreateOrder_loop_Ok _ _ _ _ _ _ []) in Hloop
    as (resolved & HI & HF & HT & Hid & Huser & Hst & Hp); [ | done | done].
  simpl in *.
  apply wrapf_Ok in Hrepo. unfold repository.CreateOrder in Hrepo.
  apply bind_Ok in Hrepo as ([] & wc & Hins & Hrepo).
  apply scan_tx_exec_Ok in Hins as (t & Hins & ->).
  apply insert_order_Ok in Hins as (Hfree & _ & Hmember & ->).
  apply bind_Ok in Hrepo as (items' & wd & Hitems & Hrepo).
  injection Hrepo as _ <-.
  apply CreateOrder_items_Ok in Hitems as (Hdb' & Hto & Hti & -> & HQ).
  simpl in *.
  rewrite Hid, Huser, Hst, HT, HI, Htx, Hsrc, Hn in *. simpl in *.
  exists (map pg.item_row
            (imap (fun k it =>
                     models.OrderItem_set_ids it
                       (ksuid_src w (ksuid_n w + k)%nat) "")
                  resolved)).
  rewrite Hdb, Hdb'. unfold pg.apply_tx. simpl.
  rewrite Hto, Hti, Ho, Hi, Hu. simpl.
  rewrite Ho in Hfree. rewrite Hu in Hmember.
  repeat split; auto.
  - rewrite insert_empty, <- insert_union_singleton_l. f_equal. f_equal.
    unfold sum_of_lines. symmetry. by apply fold_left_rows.
  - apply Forall2_same_length_lookup. split.
    + rewrite length_map, length_imap. by eapply Forall2_length.
    + intros k rq r Hrq Hr.
      apply rows_lookup in Hr as (it & Hit & ->).
      destruct (Forall2_lookup_lr _ _ _ _ _ _ HF Hrq Hit) as [Heq Hprice].
      rewrite Heq. by repeat split.
  - by apply rows_lookup in H as (it & _ & ->).
  - by apply rows_lookup in H as (it & _ & ->).
  - apply Forall_lookup. intros k r Hr.
    apply rows_lookup in Hr as (it & Hit & ->). simpl.
    by eapply (proj1 (Forall_lookup _ _) HQ).
Qed.

(** ** Totals, prices and ids of a created order *)

Lemma UpdateProduct_keeps_ledger id req w :
  ledger_kept w (snd (service.UpdateProduct id req w)).
Proof.
  unfold service.UpdateProduct.
  apply (keeps_bind ledger_kept ledger_kept_trans).
  - apply keeps_wrapf, keeps_UpdateProduct.
    + apply ledger_kept_trans.
    + by intros w0.
    + intros w0 p. apply update_product_ledger.
  - intros _. apply keeps_ret, ledger_kept_refl.
Qed.






(** ** Transactions on a healthy connection *)

Lemma healthy_tail w : healthy w -> healthy (set_faults w (tail (faults w))).
Proof. unfold healthy. simpl. by intros ->. Qed.

Lemma healthy_kept_trans w1 w2 w3 :
  healthy_kept w1 w2 -> healthy_kept w2 w3 -> healthy_kept w1 w3.
Proof. unfold healthy_kept. auto. Qed.

Lemma healthy_kept_refl w : healthy_kept w w.
Proof. by intros ?. Qed.

Lemma healthy_kept_db w d : healthy_kept w (set_db w d).
Proof. by intros ?. Qed.

Lemma healthy_kept_tx w t : healthy_kept w (set_tx w t).
Proof. by intros ?. Qed.

Lemma healthy_kept_commit w :
  healthy_kept w (set_tx (set_db w (pg.apply_tx (tx w) (db w))) pg.TxBuf_empty).
Proof. by intros ?. Qed.

Lemma healthy_kept_ids w :
  healthy_kept w (mkWorld (db w) (tx w) (faults w) (ksuid_src w) (S (ksuid_n w))).
Proof. by intros ?. Qed.

Lemma healthy_after_CreateOrder_loop i items o w :
  healthy w -> healthy (snd (service.CreateOrder_loop i items o w)).
Proof.
  exact (keeps_CreateOrder_loop healthy_kept healthy_kept_refl
           healthy_kept_trans healthy_tail
           (fun w0 p => healthy_kept_db w0 _) items i o w).
Qed.

Lemma healthy_after_CreateOrder_fn userID req t w :
  healthy w -> healthy (snd (service.CreateOrder_fn userID req t w)).
Proof.
  exact (keeps_CreateOrder_fn healthy_kept healthy_kept_refl
           healthy_kept_trans healthy_tail
           (fun w0 o => healthy_kept_tx w0 _) (fun w0 i => healthy_kept_tx w0 _)
           healthy_kept_ids
           (fun w0 p => healthy_kept_db w0 _) userID req t w).
Qed.

Lemma healthy_after_CancelOrder_loop items w :
  healthy w -> healthy (snd (service.CancelOrder_loop items w)).
Proof.
  exact (keeps_CancelOrder_loop healthy_kept healthy_kept_refl
           healthy_kept_trans healthy_tail
           (fun w0 p => healthy_kept_db w0 _) items w).
Qed.

Lemma WithTransaction_healthy_Err fn w e w2 :
  healthy w -> healthy w2 ->
  fn repository.TheTx (set_tx w pg.TxBuf_empty) = (Err e, w2) ->
  repository.WithTransaction fn w = (Err e, set_tx w2 pg.TxBuf_empty).
Proof.
  intros H H2 Hfn. unfold repository.WithTransaction.
  rewrite (bind_run_Ok _ _ _ _ _ (BeginTx_healthy w H)).
  by rewrite Hfn, (Rollback_healthy _ _ H2).
Qed.

Lemma WithTransaction_healthy_Ok fn w w2 :
  healthy w -> healthy w2 ->
  fn repository.TheTx (set_tx w pg.TxBuf_empty) = (Ok tt, w2) ->
  repository.WithTransaction fn w =
    (Ok tt, set_tx (set_db w2 (pg.apply_tx (tx w2) (db w2))) pg.TxBuf_empty).
Proof.
  intros H H2 Hfn. unfold repository.WithTransaction.
  rewrite (bind_run_Ok _ _ _ _ _ (BeginTx_healthy w H)).
  by rewrite Hfn, (Commit_healthy _ _ H2).
Qed.

(** ** The first offending item *)

Lemma bind_assoc {A B C} (m : M A) (k : A -> M B) (k' : B -> M C) w :
  bind (bind m k) k' w = bind m (fun a => bind (k a) k') w.
Proof. unfold bind. by destruct (m w) as [[a|e] w1]. Qed.

Lemma bind_ext {A B} (m : M A) (k k' : A -> M B) w :
  (forall a w1, k a w1 = k' a w1) -> bind m k w = bind m k' w.
Proof. intros H. unfold bind. by destruct (m w) as [[a|e] w1]. Qed.

Lemma CreateOrder_loop_app pre : forall rest i o w,
  service.CreateOrder_loop i (pre ++ rest)%list o w =
    bind (service.CreateOrder_loop i pre o)
         (fun o' => service.CreateOrder_loop (i + length pre) rest o') w.
Proof.
  induction pre as [|rq pre IH]; intros rest i o w; simpl.
  - unfold bind, ret. by rewrite Nat.add_0_r.
  - rewrite bind_assoc. apply bind_ext. intros p w1.
    destruct (_ <? _)%Z; [done | ].
    rewrite bind_assoc. apply bind_ext. intros _ w2.
    rewrite IH.
    by replace (S i + length pre)%nat with (i + S (length pre))%nat by lia.
Qed.

(** C7.  CreateOrder processes the requested items in input order.  Once
    the items before [it] have been processed without error, leaving the
    world [wa]: if the product of [it] is absent, the whole call fails with
    NotFound, wrapped with that product id; if its stock is less than the
    requested quantity, the whole call fails with InsufficientStock.  The
    error is the one of this first offending item, whatever follows it.
    (The connection is healthy.) *)
Theorem first_offending_item (userID : string) (req : models.CreateOrderRequest)
    (pre post : list models.CreateOrderItemRequest)
    (it : models.CreateOrderItemRequest) (w wa : World) (o : models.Order) :
  healthy w ->
  models.Req_Items req = (pre ++ it :: post)%list ->
  service.CreateOrder_loop 0 pre
    (models.mkOrder "" userID models.StatusPending 0%float
       (replicate (length (models.Req_Items req)) models.OrderItem_zero))
    (set_tx w pg.TxBuf_empty) = (Ok o, wa) ->
  (pg.products (db wa) !! models.Req_ProductID it = None ->
   fst (service.CreateOrder userID req w) =
     Err (pkg.Wrap ("getting product " ++ models.Req_ProductID it)
                   pkg.ErrNotFound))
  /\ (forall r,
        pg.products (db wa) !! models.Req_ProductID it = Some r ->
        (pg.p_stock_quantity r < models.Req_Quantity it)%Z ->
        fst (service.CreateOrder userID req w) = Err pkg.ErrInsufficientStock).
Proof.
  intros H Hitems Hpre.
  assert (Ha : healthy wa).
  { match type of Hpre with
    | service.CreateOrder_loop _ _ ?o0 ?w0 = _ =>
        pose proof (healthy_after_CreateOrder_loop 0 pre o0 w0 H) as Hh
    end.
    by rewrite Hpre in Hh. }
  assert (Hfail : forall e,
    service.CreateOrder_loop (0 + length pre) (it :: post) o wa = (Err e, wa) ->
    fst (service.CreateOrder userID req w) = Err e).
  { intros e He. unfold service.CreateOrder.
    erewrite WithTransaction_healthy_Err; [done | exact H | exact Ha | ].
    unfold service.CreateOrder_fn.
    rewrite (bind_run_Err _ _ _ e wa); [done | ].
    remember (length (models.Req_Items req)) as n eqn:Hn. clear Hn.
    rewrite Hitems.
    rewrite CreateOrder_loop_app. by rewrite (bind_run_Ok _ _ _ _ _ Hpre). }
  split.
  - intros Hnone. apply Hfail. simpl.
    apply bind_run_Err, wrapf_run_Err. by apply GetProductByID_missing.
  - intros r Hr Hlt. apply Hfail. simpl.
    rewrite (bind_run_Ok _ _ _ _ _
               (wrapf_run_Ok _ _ _ _ _ (GetProductByID_healthy _ _ _ Ha Hr))).
    simpl. by destruct (Z.ltb_spec (pg.p_stock_quantity r) (models.Req_Quantity it));
      [ | lia].
Qed.

Lemma first_offending_item_witness :
  fst (service.CreateOrder "alice"
         (example.cart [example.item "P" 3; example.item "R" 1;
                        example.item "Q" 1]) example.world0)
  = Err (pkg.Wrap ("getting product " ++ "R") pkg.ErrNotFound)
  /\ fst (service.CreateOrder "alice"
            (example.cart [example.item "P" 3; example.item "P" 3;
                           example.item "Q" 1]) example.world0)
     = Err pkg.ErrInsufficientStock.
Proof.
  split.
  - refine (proj1 (first_offending_item "alice"
                     (example.cart [example.item "P" 3; example.item "R" 1;
                                    example.item "Q" 1])
                     [example.item "P" 3] [example.item "Q" 1]
                     (example.item "R" 1) example.world0
                     example.world_after_pens example.order_after_pens
                     _ _ _) _).
    + reflexivity.
    + reflexivity.
    + vm_compute. reflexivity.
    + vm_compute. reflexivity.
  - refine (proj2 (first_offending_item "alice"
                     (example.cart [example.item "P" 3; example.item "P" 3;
                                    example.item "Q" 1])
                     [example.item "P" 3] [example.item "Q" 1]
                     (example.item "P" 3) example.world0
                     example.world_after_pens example.order_after_pens
                     _ _ _)
                  (pg.mkProductRow "pen" "" 10%float 2) _ _).
    + reflexivity.
    + reflexivity.
    + vm_compute. reflexivity.
    + vm_compute. reflexivity.
    + simpl. lia.
Defined.

(** ** The errors CreateOrder can return *)

Section Raises.

Variable E : pkg.error -> Prop.
Hypothesis E_wrap : forall msg e, E e -> E (pkg.Wrap msg e).
Hypothesis E_pg : forall c, E (pkg.PgError c).
Hypothesis E_not_found : E pkg.ErrNotFound.
Hypothesis E_stock : E pkg.ErrInsufficientStock.

Lemma raises_ret {A} (a : A) : raises E (ret a).
Proof. intros w e w'. discriminate. Qed.

Lemma raises_bind {A B} (m : M A) (k : A -> M B) :
  raises E m -> (forall a, raises E (k a)) -> raises E (bind m k).
Proof.
  intros Hm Hk w e w' H.
  apply bind_Err in H as [H | (a & w1 & _ & H)]; [by eapply Hm | by eapply Hk].
Qed.

Lemma raises_wrapf {A} msg (m : M A) : raises E m -> raises E (wrapf msg m).
Proof using E_wrap.
  intros Hm w e w' H. apply wrapf_Err in H as (e0 & -> & H).
  apply E_wrap. by eapply Hm.
Qed.

Lemma raises_scan {A} (q : World -> (pg.pgerr + A) * World) on_err :
  (forall c, E (on_err c)) -> raises E (scan q on_err).
Proof.
  intros Hc w e w'. unfold scan.
  destruct (q w) as [[c|a] w1]; [ | discriminate]. intros [= <- _]. apply Hc.
Qed.

Lemma E_not_found_or msg c : E (not_found_or msg c).
Proof using E_wrap E_pg E_not_found.
  destruct c; simpl; auto.
Qed.

Lemma E_wrapped msg c : E (wrapped msg c).
Proof using E_wrap E_pg. apply E_wrap, E_pg. Qed.

Lemma raises_CreateOrder_loop items : forall i o,
  raises E (service.CreateOrder_loop i items o).
Proof using E_wrap E_pg E_not_found E_stock.
  induction items as [|it items IH]; intros i o; simpl; [apply raises_ret | ].
  apply raises_bind.
  - apply raises_wrapf, raises_scan. intros c. apply E_not_found_or.
  - intros p. destruct (_ <? _)%Z.
    + intros w e w'. by intros [= <- _].
    + apply raises_bind; [ | intros _; apply IH].
      apply raises_wrapf, raises_scan. intros c. apply E_not_found_or.
Qed.

Lemma raises_CreateOrder_items oid items :
  raises E (repository.CreateOrder_items oid items).
Proof using E_wrap E_pg.
  induction items as [|it items IH]; simpl; [apply raises_ret | ].
  apply raises_bind; [intros w e w'; discriminate | intros id].
  apply raises_bind; [apply raises_scan; intros c; apply E_wrapped | intros _].
  apply raises_bind; [exact IH | intros l; apply raises_ret].
Qed.

Lemma raises_CreateOrder_fn userID req t :
  raises E (service.CreateOrder_fn userID req t).
Proof using E_wrap E_pg E_not_found E_stock.
  unfold service.CreateOrder_fn.
  apply raises_bind; [apply raises_CreateOrder_loop | intros o].
  apply raises_bind; [ | intros _; apply raises_ret].
  apply raises_wrapf. unfold repository.CreateOrder.
  apply raises_bind; [apply raises_scan; intros c; apply E_wrapped | intros _].
  apply raises_bind; [apply raises_CreateOrder_items | intros l; apply raises_ret].
Qed.

End Raises.

(** The error of a failed transaction is the first one met: that of
    [BeginTx], else that of the body (joined with that of [Rollback] if the
    rollback fails too), else that of [Commit]. *)
Lemma WithTransaction_Err fn w e w' :
  repository.WithTransaction fn w = (Err e, w') ->
  (hd false (faults w) = true /\ e = pkg.PgError pg.ConnectionFailure)
  \/ (exists e0 w2,
        fn repository.TheTx
           (set_tx (set_faults w (tail (faults w))) pg.TxBuf_empty)
        = (Err e0, w2)
        /\ (e = e0
            \/ e = pkg.Wrap2 "tx err" e0 "rb err"
                     (pkg.PgError pg.ConnectionFailure)))
  \/ (exists w2,
        fn repository.TheTx
           (set_tx (set_faults w (tail (faults w))) pg.TxBuf_empty)
        = (Ok tt, w2)
        /\ e = pkg.PgError pg.ConnectionFailure).
Proof.
  unfold repository.WithTransaction, bind, repository.BeginTx, round_trip.
  destruct (hd false (faults w)); [intros [= <- _]; by left | ].
  right. destruct (fn _ _) as [[[]|e0] w2].
  - right. exists w2. split; [done | ].
    unfold repository.Commit, round_trip in H.
    destruct (hd false (faults w2)); [ | discriminate]. by injection H as <-.
  - left. exists e0, w2. split; [done | ].
    unfold repository.Rollback, round_trip in H.
    destruct (hd false (faults w2)); injection H as <-; auto.
Qed.

Lemma not_validation_wrap msg e :
  not_validation e -> not_validation (pkg.Wrap msg e).
Proof. unfold not_validation. simpl. by intros ->. Qed.

Lemma not_validation_pg c : not_validation (pkg.PgError c).
Proof. by destruct c. Qed.

Lemma CreateOrder_never_validation userID req :
  raises not_validation (service.CreateOrder userID req).
Proof.
  intros w e w' H.
  pose proof (fun t =>
    raises_CreateOrder_fn not_validation not_validation_wrap
      not_validation_pg eq_refl eq_refl userID req t) as Hfn.
  apply WithTransaction_Err in H
    as [[_ ->] | [(e0 & w2 & Hb & [-> | ->]) | (w2 & _ & ->)]]; try done.
  - by eapply Hfn.
  - apply Hfn in Hb. unfold not_validation in *. simpl. by rewrite Hb.
Qed.

(** ** What CreateOrder returns *)




(** ** CreateOrder and malformed carts *)

(** C9 as the specification states it fails: with an empty cart the call
    does not fail at all. *)
Lemma CreateOrder_accepts_empty_cart :
  ~ exists e w',
      service.CreateOrder "alice" example.cart_empty example.world0 = (Err e, w')
      /\ pkg.errors_Is e pkg.ErrInvalidInput = true
      /\ pg.orders (db w') = pg.orders (db example.world0).
Proof.
  intros (e & w' & H & _). vm_compute in H. discriminate H.
Qed.

Lemma empty_cart_body userID w :
  healthy w ->
  pg.orders (db w) !! "" = None ->
  userID ∈ pg.users (db w) ->
  service.CreateOrder_fn userID (models.mkCreateOrderRequest [])
    repository.TheTx (set_tx w pg.TxBuf_empty)
  = (Ok tt,
     set_tx w
       (pg.mkTxBuf
          (<["" := pg.mkOrderRow userID models.StatusPending 0%float]> ∅) [])).
Proof.
  intros H Hfree Huser.
  unfold service.CreateOrder_fn, repository.CreateOrder. simpl.
  unfold bind at 1. unfold ret at 1.
  unfold bind at 1, wrapf, bind at 1, scan.
  rewrite tx_exec_healthy by done. simpl.
  unfold pg.insert_order. simpl.
  replace (PrimFloat.leb 0 0) with true by reflexivity. simpl.
  rewrite Hfree, lookup_empty.
  rewrite (bool_decide_eq_false_2 (is_Some None)) by (by intros [? ?]).
  simpl. by rewrite bool_decide_eq_true_2.
Qed.

(** C9, amended.  CreateOrder validates nothing itself.  With an empty
    cart, a healthy connection, an existing user and the empty order id
    still free, it succeeds: it writes one order row (status pending,
    total_amount 0), no item row, and changes no stock.  With an item of
    non-positive quantity in the cart it fails, with an error that is not
    the validation error, and writes no order row and no item row. *)
Theorem CreateOrder_does_not_validate (userID : string) (w : World) :
  (healthy w ->
   pg.orders (db w) !! "" = None ->
   userID ∈ pg.users (db w) ->
   fst (service.CreateOrder userID (models.mkCreateOrderRequest []) w) = Ok tt
   /\ db (snd (service.CreateOrder userID (models.mkCreateOrderRequest []) w))
      = pg.set_orders (db w)
          (<["" := pg.mkOrderRow userID models.StatusPending 0%float]>
             (pg.orders (db w))))
  /\ (forall req,
        Exists (fun it => (models.Req_Quantity it <= 0)%Z) (models.Req_Items req) ->
        exists e w',
          service.CreateOrder userID req w = (Err e, w')
          /\ pkg.errors_Is e pkg.ErrInvalidInput = false
          /\ pg.orders (db w') = pg.orders (db w)
          /\ pg.order_items (db w') = pg.order_items (db w)).
Proof.
  split.
  - intros H Hfree Huser. unfold service.CreateOrder.
    erewrite WithTransaction_healthy_Ok;
      [ | done | | by apply empty_cart_body]; [ | done].
    simpl. split; [done | ].
    unfold pg.apply_tx, pg.set_orders. simpl.
    by rewrite app_nil_r, insert_empty, <- insert_union_singleton_l.
  - intros req Hex.
    destruct (service.CreateOrder userID req w) as [[[]|e] w'] eqn:H.
    + exfalso.
      apply CreateOrder_Ok in H as (rows & _ & _ & _ & _ & _ & HF & _ & HQ & _).
      apply Exists_exists in Hex as (it & Hin & Hle).
      apply list_elem_of_lookup in Hin as (k & Hk).
      destruct (Forall2_lookup_l _ _ _ _ _ HF Hk) as (r & Hr & _ & Hq & _).
      pose proof (proj1 (Forall_lookup _ _) HQ k r Hr) as Hpos. simpl in Hpos.
      lia.
    + exists e, w'. split; [done | ].
      split; [by eapply CreateOrder_never_validation | ].
      by destruct (failed_CreateOrder_ledger _ _ _ _ _ H) as (_ & ? & ?).
Qed.

Lemma CreateOrder_does_not_validate_witness :
  (fst (service.CreateOrder "alice" (models.mkCreateOrderRequest [])
          example.world0) = Ok tt
   /\ db (snd (service.CreateOrder "alice" (models.mkCreateOrderRequest [])
                 example.world0))
      = pg.set_orders (db example.world0)
          (<["" := pg.mkOrderRow "alice" models.StatusPending 0%float]>
             (pg.orders (db example.world0))))
  /\ exists e w',
       service.CreateOrder "alice" (example.cart [example.item "P" 0])
         example.world0 = (Err e, w')
       /\ pkg.errors_Is e pkg.ErrInvalidInput = false
       /\ pg.orders (db w') = pg.orders (db example.world0)
       /\ pg.order_items (db w') = pg.order_items (db example.world0).
Proof.
  split.
  - apply (proj1 (CreateOrder_does_not_validate "alice" example.world0)).
    + reflexivity.
    + vm_compute. reflexivity.
    + apply (bool_decide_unpack _). vm_compute. exact I.
  - apply (proj2 (CreateOrder_does_not_validate "alice" example.world0)
             (example.cart [example.item "P" 0])).
    apply Exists_cons_hd. simpl. lia.
Defined.

(** ** Cancelling an order *)







Lemma apply_tx_empty d : pg.apply_tx pg.TxBuf_empty d = d.
Proof.
  destruct d. unfold pg.apply_tx. simpl.
  by rewrite app_nil_r, (left_id_L ∅ (∪)).
Qed.




(** ** The schema is an invariant of the calls

    Whatever the calls return, the store goes on satisfying the
    constraints of the migration: the hypothesis [schema_ok] made above
    about the store is one the code itself maintains. *)

Ltac split_schema :=
  unfold schema_ok in *; simpl in *;
  split; [ | split; [ | split; [ | split]]]; try done.

Lemma schema_set_products D id row :
  schema_ok D ->
  is_Some (pg.products D !! id) ->
  PrimFloat.ltb 0 (pg.p_price row) = true ->
  (0 <= pg.p_stock_quantity row < 2 ^ 31)%Z ->
  schema_ok (pg.set_products D (<[id := row]> (pg.products D))).
Proof.
  intros (Hp & Ho & Hi & Hids & Hpairs) Hsome Hprice Hstock.
  split_schema.
  - by apply map_Forall_insert_2.
  - eapply Forall_impl; [exact Hi | ].
    intros i (? & ? & ? & Hfk). split; [done | split; [done | split; [done | ]]].
    apply lookup_insert_is_Some'. by right.
Qed.

Lemma schema_update_product p D :
  schema_ok D -> schema_ok (snd (pg.update_product p D)).
Proof.
  intros HD. unfold pg.update_product, pg.int4.
  destruct (Z.leb_spec (- 2 ^ 31) (models.Product_StockQuantity p));
    simpl; [ | done].
  destruct (Z.ltb_spec (models.Product_StockQuantity p) (2 ^ 31));
    simpl; [ | done].
  destruct (pg.products D !! models.Product_ID p) as [r|] eqn:Hr; [ | done].
  destruct (PrimFloat.ltb 0 (models.Product_Price p)) eqn:Hprice;
    simpl; [ | done].
  destruct (Z.leb_spec 0 (models.Product_StockQuantity p)); simpl; [ | done].
  apply schema_set_products; simpl; [done | by rewrite Hr | done | lia].
Qed.

Lemma update_product_apply_tx p t d :
  pg.apply_tx t (snd (pg.update_product p d))
  = snd (pg.update_product p (pg.apply_tx t d)).
Proof.
  unfold pg.update_product. simpl.
  destruct (negb _); [done | ].
  destruct (pg.products d !! _); [ | done].
  by destruct (_ && _).
Qed.

Lemma schema_update_order_status id s D :
  schema_ok D -> schema_ok (snd (pg.update_order_status id s D)).
Proof.
  intros (Hp & Ho & Hi & Hids & Hpairs). unfold pg.update_order_status.
  destruct (pg.orders D !! id) as [r|] eqn:Hr; [ | done].
  split_schema.
  - apply map_Forall_insert_2; [ | done]. apply (Ho _ _ Hr).
  - eapply Forall_impl; [exact Hi | ].
    intros i (? & ? & Hfk & ?). split; [done | split; [done | split; [ | done]]].
    apply lookup_insert_is_Some'. by right.
Qed.

Lemma schema_view_update_order_status t d id s :
  schema_ok d -> schema_ok (pg.apply_tx t d) ->
  schema_ok (pg.apply_tx t (snd (pg.update_order_status id s d))).
Proof.
  intros (_ & Hod & _) (Hp & Ho & Hi & Hids & Hpairs).
  unfold pg.update_order_status.
  destruct (pg.orders d !! id) as [r|] eqn:Hr; [ | by split_schema].
  split_schema.
  - intros k row Hk.
    apply lookup_union_Some_raw in Hk as [Hk | [Hnone Hk]].
    + apply (Ho k). by apply lookup_union_Some_l.
    + rewrite lookup_insert in Hk. case_decide as Hid.
      * injection Hk as <-. apply (Hod _ _ Hr).
      * by apply (Hod k).
  - eapply Forall_impl; [exact Hi | ].
    intros i (? & ? & Hfk & ?). split; [done | split; [done | split; [ | done]]].
    apply lookup_union_is_Some. apply lookup_union_is_Some in Hfk as [? | ?].
    + by left.
    + right. apply lookup_insert_is_Some'. by right.
Qed.

Lemma schema_view_insert_order o d t :
  schema_ok (pg.apply_tx t d) ->
  schema_ok (pg.apply_tx (snd (pg.insert_order o d t)) d).
Proof.
  intros (Hp & Ho & Hi & Hids & Hpairs). unfold pg.insert_order.
  destruct (PrimFloat.leb 0 (models.Order_TotalAmount o)) eqn:Htotal;
    simpl; [ | by split_schema].
  destruct (_ || _); [by split_schema | ].
  destruct (bool_decide_reflect (models.Order_UserID o ∈ pg.users d));
    simpl; [ | by split_schema].
  split_schema.
  - rewrite <- insert_union_l. by apply map_Forall_insert_2.
  - rewrite <- insert_union_l.
    eapply Forall_impl; [exact Hi | ].
    intros i (? & ? & Hfk & ?). split; [done | split; [done | split; [ | done]]].
    apply lookup_insert_is_Some'. by right.
Qed.

Lemma schema_view_insert_order_item i d t :
  schema_ok (pg.apply_tx t d) ->
  schema_ok (pg.apply_tx (snd (pg.insert_order_item i d t)) d).
Proof.
  intros HS. unfold pg.insert_order_item, pg.int4, pg.visible_items.
  destruct (Z.leb_spec (- 2 ^ 31) (models.OrderItem_Quantity i));
    simpl; [ | done].
  destruct (Z.ltb_spec (models.OrderItem_Quantity i) (2 ^ 31));
    simpl; [ | done].
  destruct (Z.ltb_spec 0 (models.OrderItem_Quantity i)); simpl; [ | done].
  destruct (PrimFloat.leb 0 (models.OrderItem_UnitPrice i)) eqn:Hprice;
    simpl; [ | done].
  destruct (bool_decide_reflect
              (Exists (fun r => pg.oi_id r = models.OrderItem_ID i)
                      (pg.order_items d ++ pg.tx_order_items t)))
    as [|Hfresh]; simpl; [done | ].
  destruct (bool_decide_reflect
              (Exists (fun r => pg.oi_order_id r = models.OrderItem_OrderID i
                                /\ pg.oi_product_id r = models.OrderItem_ProductID i)
                      (pg.order_items d ++ pg.tx_order_items t)))
    as [|Hnew]; simpl; [done | ].
  assert (Hfk : negb (bool_decide (is_Some (pg.orders d !! models.OrderItem_OrderID i))
                      || bool_decide (is_Some (pg.tx_orders t !! models.OrderItem_OrderID i)))
                || negb (bool_decide (is_Some (pg.products d !! models.OrderItem_ProductID i)))
                = false ->
                is_Some ((pg.tx_orders t ∪ pg.orders d) !! models.OrderItem_OrderID i)
                /\ is_Some (pg.products d !! models.OrderItem_ProductID i)).
  { intros Hb. apply orb_false_elim in Hb as [Hb1 Hb2].
    apply negb_false_iff in Hb1, Hb2.
    apply bool_decide_eq_true_1 in Hb2. split; [ | done].
    apply lookup_union_is_Some.
    apply orb_true_elim in Hb1 as [Hb1 | Hb1];
      apply bool_decide_eq_true_1 in Hb1; auto. }
  destruct (_ || _); [done | ].
  destruct (Hfk eq_refl) as [Horder Hproduct]. clear Hfk.
  destruct HS as (Hp & Ho & Hi & Hids & Hpairs).
  split_schema.
  - rewrite (assoc_L (++)). apply Forall_app. split; [done | ].
    apply Forall_singleton. simpl.
    split; [lia | split; [done | split; done]].
  - rewrite (assoc_L (++)), map_app. simpl. apply NoDup_app.
    split; [done | split; [ | apply NoDup_singleton]].
    intros x Hx Hx'. apply list_elem_of_singleton in Hx'. subst x.
    apply list_elem_of_fmap in Hx as (r & Hr & Hin).
    apply Hfresh, Exists_exists. exists r. by split.
  - rewrite (assoc_L (++)), map_app. simpl. apply NoDup_app.
    split; [done | split; [ | apply NoDup_singleton]].
    intros x Hx Hx'. apply list_elem_of_singleton in Hx'. subst x.
    apply list_elem_of_fmap in Hx as (r & Hr & Hin).
    apply Hnew, Exists_exists. exists r. split; [done | ].
    by injection Hr as <- <-.
Qed.

Lemma consistency_kept_by_calls (c : call) (w : World) :
  consistency_kept w (perform c w).
Proof.
  assert (Hrefl : forall w, consistency_kept w w) by (by intros ? ?).
  assert (Htrans : forall w1 w2 w3,
             consistency_kept w1 w2 -> consistency_kept w2 w3 ->
             consistency_kept w1 w3)
    by (unfold consistency_kept; auto).
  assert (Hfaults : forall w,
             consistency_kept w (set_faults w (tail (faults w))))
    by (by intros ? ?).
  assert (Hbegin : forall w, consistency_kept w (set_tx w pg.TxBuf_empty)).
  { intros w0 [Hd _]. split; [done | ].
    unfold tx_view. simpl. by rewrite apply_tx_empty. }
  assert (Hio : forall w o, consistency_kept w
            (set_tx w (snd (pg.insert_order o (db w) (tx w))))).
  { intros w0 o [Hd Hv]. split; [done | ].
    by apply schema_view_insert_order. }
  assert (Hii : forall w i, consistency_kept w
            (set_tx w (snd (pg.insert_order_item i (db w) (tx w))))).
  { intros w0 i [Hd Hv]. split; [done | ].
    by apply schema_view_insert_order_item. }
  assert (Hids : forall w, consistency_kept w
            (mkWorld (db w) (tx w) (faults w) (ksuid_src w) (S (ksuid_n w))))
    by (by intros ? ?).
  assert (Hup : forall w p,
             consistency_kept w (set_db w (snd (pg.update_product p (db w))))).
  { intros w0 p [Hd Hv]. split; [by apply schema_update_product | ].
    unfold tx_view. simpl. rewrite update_product_apply_tx.
    by apply schema_update_product. }
  assert (Hst : forall w id s,
             consistency_kept w
               (set_db w (snd (pg.update_order_status id s (db w))))).
  { intros w0 id s [Hd Hv]. split; [by apply schema_update_order_status | ].
    by apply schema_view_update_order_status. }
  assert (Hcommit : forall w, consistency_kept w
            (set_tx (set_db w (pg.apply_tx (tx w) (db w))) pg.TxBuf_empty)).
  { intros w0 [Hd Hv]. split; [done | ].
    unfold tx_view. simpl. by rewrite apply_tx_empty. }
  destruct c as [userID req | id userID]; simpl.
  - by apply (keeps_service_CreateOrder consistency_kept).
  - by apply (keeps_service_CancelOrder consistency_kept).
Qed.

(** From a world whose store satisfies the schema, with no transaction
    open, every sequence of calls leads through worlds whose stores
    satisfy the schema. *)
Theorem schema_is_kept (cs : list call) (w : World) :
  schema_ok (db w) -> tx w = pg.TxBuf_empty ->
  Forall (fun w' => schema_ok (db w')) (trace cs w).
Proof.
  intros Hd Ht.
  assert (Hc : consistent w).
  { split; [done | ]. unfold tx_view. by rewrite Ht, apply_tx_empty. }
  clear Hd Ht. revert w Hc.
  induction cs as [|c cs IH]; intros w Hc; simpl; constructor.
  - by apply (consistency_kept_by_calls c w).
  - apply IH. by apply consistency_kept_by_calls.
Qed.

(** * Beyond the order engine: answers, catalog, histories *)

(** ** How errors are answered *)

Lemma errors_Is_Wrap msg e target :
  target <> pkg.Wrap msg e ->
  pkg.errors_Is (pkg.Wrap msg e) target = pkg.errors_Is e target.
Proof.
  intros Hne. simpl. rewrite bool_decide_eq_false_2; [done | ].
  intros Heq. by apply Hne.
Qed.

Lemma handleError_Wrap msg e :
  handler.handleError (pkg.Wrap msg e) = handler.handleError e.
Proof.
  unfold handler.handleError.
  by rewrite !errors_Is_Wrap by discriminate.
Qed.

(** Adding context to an error with [fmt.Errorf("...: %w", err)], as the
    repository and the service do at every step and however many times,
    never changes the answer [handleError] gives for it. *)
Theorem handleError_ignores_context (msgs : list string) (e : pkg.error) :
  handler.handleError (foldr pkg.Wrap e msgs) = handler.handleError e.
Proof.
  induction msgs as [|msg msgs IH]; simpl; [done | ].
  by rewrite handleError_Wrap.
Qed.

Lemma handleError_pg c :
  handler.handleError (pkg.PgError c)
  = handler.mkResponse 500
      (handler.ErrorBody (handler.mkErrorResponse "INTERNAL_ERROR"
                            "An unexpected error occurred")).
Proof. by destruct c. Qed.

Lemma handleError_rollback_failed e c :
  handler.handleError (pkg.Wrap2 "tx err" e "rb err" (pkg.PgError c))
  = handler.handleError e.
Proof.
  unfold handler.handleError. cbn [pkg.errors_Is].
  rewrite !(bool_decide_eq_false_2 (pkg.Wrap2 _ _ _ _ = _)) by discriminate.
  rewrite !(bool_decide_eq_false_2 (pkg.PgError _ = _)) by discriminate.
  simpl. by rewrite !orb_false_r.
Qed.

(** Whatever makes CreateOrder fail, the caller is answered 404 NOT_FOUND,
    400 INSUFFICIENT_STOCK or 500 INTERNAL_ERROR, and nothing else: a
    violated constraint of the schema (a repeated product, a non-positive
    quantity, the order id taken) is answered as an internal error. *)
Theorem CreateOrder_failure_answers (userID : string)
    (req : models.CreateOrderRequest) (w w' : World) (e : pkg.error) :
  service.CreateOrder userID req w = (Err e, w') ->
  CreateOrder_failure_answer (handler.handleError e).
Proof.
  intros H.
  assert (Hfn : forall t,
    raises (fun e => CreateOrder_failure_answer (handler.handleError e))
           (service.CreateOrder_fn userID req t)).
  { intros t. apply raises_CreateOrder_fn.
    - intros msg e0. by rewrite handleError_Wrap.
    - intros c. rewrite handleError_pg. right. by right.
    - by left.
    - right. by left. }
  apply WithTransaction_Err in H
    as [[_ ->] | [(e0 & w2 & Hb & [-> | ->]) | (w2 & _ & ->)]].
  - rewrite handleError_pg. right. by right.
  - by eapply Hfn.
  - rewrite handleError_rollback_failed. by eapply Hfn.
  - rewrite handleError_pg. right. by right.
Qed.

Lemma CreateOrder_failure_answers_witness :
  CreateOrder_failure_answer
    (handler.handleError
       (pkg.Wrap "creating order"
          (pkg.Wrap "create order item" (pkg.PgError pg.UniqueViolation)))).
Proof.
  apply (CreateOrder_failure_answers "alice"
           (example.cart [example.item "P" 1; example.item "P" 1])
           example.world0
           (snd (service.CreateOrder "alice"
                   (example.cart [example.item "P" 1; example.item "P" 1])
                   example.world0))).
  vm_compute. reflexivity.
Defined.

Lemma GetOrderByID_missing id w :
  healthy w -> pg.orders (db w) !! id = None ->
  repository.GetOrderByID id w = (Err pkg.ErrNotFound, w).
Proof.
  intros H Hr. unfold repository.GetOrderByID, bind, scan.
  rewrite (pool_exec_healthy _ _ H). simpl.
  unfold pg.select_order. rewrite Hr. by rewrite set_db_same.
Qed.

(** What the cancel endpoint answers when it refuses, on a healthy
    connection: 404 for an order that does not exist, 403 for an order of
    somebody else, whatever its status, and 400 for the caller's own order
    that is not pending; the world stays as it was. *)
Theorem CancelOrder_refusals (w : World) (id userID : string) :
  healthy w ->
  (pg.orders (db w) !! id = None ->
   handler.CancelOrder id userID w
   = (handler.mkResponse 404
        (handler.ErrorBody (handler.mkErrorResponse "NOT_FOUND"
                              "Resource not found")), w))
  /\ (forall row,
        pg.orders (db w) !! id = Some row ->
        pg.o_user_id row <> userID ->
        handler.CancelOrder id userID w
        = (handler.mkResponse 403
             (handler.ErrorBody
                (handler.mkErrorResponse "UNAUTHORIZED"
                   "You don't have permission to perform this action")), w))
  /\ (forall row,
        pg.orders (db w) !! id = Some row ->
        pg.o_user_id row = userID ->
        pg.o_status row <> models.StatusPending ->
        handler.CancelOrder id userID w
        = (handler.mkResponse 400
             (handler.ErrorBody
                (handler.mkErrorResponse "INVALID_ORDER_STATUS"
                   "Order cannot be modified in its current status")), w)).
Proof.
  intros H. unfold handler.CancelOrder, handler.answer, service.CancelOrder.
  split; [ | split].
  - intros Hnone.
    by rewrite (bind_run_Err _ _ _ _ _
                  (wrapf_run_Err _ _ _ _ _ (GetOrderByID_missing _ _ H Hnone))).
  - intros row Hrow Huser.
    rewrite (bind_run_Ok _ _ _ _ _
               (wrapf_run_Ok _ _ _ _ _ (GetOrderByID_healthy _ _ _ H Hrow))).
    simpl. by rewrite bool_decide_eq_false_2.
  - intros row Hrow Huser Hst.
    rewrite (bind_run_Ok _ _ _ _ _
               (wrapf_run_Ok _ _ _ _ _ (GetOrderByID_healthy _ _ _ H Hrow))).
    simpl. rewrite bool_decide_eq_true_2 by done.
    by rewrite bool_decide_eq_false_2.
Qed.

Lemma CancelOrder_refusals_witness :
  handler.CancelOrder "o2" "alice" example.world1
  = (handler.mkResponse 404
       (handler.ErrorBody (handler.mkErrorResponse "NOT_FOUND"
                             "Resource not found")), example.world1)
  /\ handler.CancelOrder "o1" "bob" example.world1_cancelled
     = (handler.mkResponse 403
          (handler.ErrorBody
             (handler.mkErrorResponse "UNAUTHORIZED"
                "You don't have permission to perform this action")),
        example.world1_cancelled)
  /\ handler.CancelOrder "o1" "alice" example.world1_cancelled
     = (handler.mkResponse 400
          (handler.ErrorBody
             (handler.mkErrorResponse "INVALID_ORDER_STATUS"
                "Order cannot be modified in its current status")),
        example.world1_cancelled).
Proof.
  split; [ | split].
  - apply (proj1 (CancelOrder_refusals example.world1 "o2" "alice" eq_refl)).
    vm_compute. reflexivity.
  - refine (proj1 (proj2 (CancelOrder_refusals example.world1_cancelled
                            "o1" "bob" _))
              (pg.mkOrderRow "alice" models.StatusCancelled 32.5%float) _ _).
    + vm_compute. reflexivity.
    + vm_compute. reflexivity.
    + simpl. discriminate.
  - refine (proj2 (proj2 (CancelOrder_refusals example.world1_cancelled
                            "o1" "alice" _))
              (pg.mkOrderRow "alice" models.StatusCancelled 32.5%float) _ _ _).
    + vm_compute. reflexivity.
    + vm_compute. reflexivity.
    + reflexivity.
    + simpl. discriminate.
Defined.

(** A status update on a cancelled or delivered order is answered 500
    INTERNAL_ERROR: the error the service makes for it is none of the
    sentinels [handleError] knows.  (The order exists and the connection is
    healthy.) *)
Theorem terminal_update_is_answered_500 (w w' : World) (id : string)
    (row : pg.OrderRow) (status : models.OrderStatus) (e : pkg.error) :
  healthy w ->
  pg.orders (db w) !! id = Some row ->
  terminal (pg.o_status row) ->
  service.UpdateStatus id status w = (Err e, w') ->
  handler.handleError e
  = handler.mkResponse 500
      (handler.ErrorBody (handler.mkErrorResponse "INTERNAL_ERROR"
                            "An unexpected error occurred")).
Proof.
  intros H Hrow Ht. unfold service.UpdateStatus.
  rewrite (bind_run_Ok _ _ _ _ _
             (wrapf_run_Ok _ _ _ _ _ (GetOrderByID_healthy _ _ _ H Hrow))).
  simpl. destruct Ht as [-> | ->]; simpl; by intros [= <- _].
Qed.

Lemma terminal_update_is_answered_500_witness :
  handler.handleError (pkg.Errorf "cannot update cancelled order")
  = handler.mkResponse 500
      (handler.ErrorBody (handler.mkErrorResponse "INTERNAL_ERROR"
                            "An unexpected error occurred")).
Proof.
  refine (terminal_update_is_answered_500 example.world1_cancelled
            example.world1_cancelled "o1"
            (pg.mkOrderRow "alice" models.StatusCancelled 32.5%float)
            models.StatusShipped _ _ _ _ _).
  - vm_compute. reflexivity.
  - vm_compute. reflexivity.
  - left. reflexivity.
  - vm_compute. reflexivity.
Defined.

(** ** Relations the catalog calls and the reads keep *)

Section KeepsCatalog.

Variable R : World -> World -> Prop.
Hypothesis R_refl : forall w, R w w.
Hypothesis R_trans : forall w1 w2 w3, R w1 w2 -> R w2 w3 -> R w1 w3.
Hypothesis R_faults : forall w, R w (set_faults w (tail (faults w))).
Hypothesis R_ids :
  forall w, R w (mkWorld (db w) (tx w) (faults w) (ksuid_src w) (S (ksuid_n w))).
Hypothesis R_update_product :
  forall w p, R w (set_db w (snd (pg.update_product p (db w)))).
Hypothesis R_update_order_status :
  forall w id s, R w (set_db w (snd (pg.update_order_status id s (db w)))).
Hypothesis R_insert_product :
  forall w p, R w (set_db w (snd (products_sql.insert_product p (db w)))).
Hypothesis R_delete_product :
  forall w id, R w (set_db w (snd (products_sql.delete_product id (db w)))).

Lemma keeps_products_CreateProduct req :
  keeps R (products_service.CreateProduct req).
Proof using R_refl R_trans R_faults R_ids R_insert_product.
  unfold products_service.CreateProduct.
  apply (keeps_bind R R_trans); [exact R_ids | intros id].
  apply (keeps_bind R R_trans); [ | intros _; by apply keeps_ret].
  apply keeps_wrapf, keeps_scan, (keeps_pool_exec R R_trans R_faults).
  intros w. apply R_insert_product.
Qed.

Lemma keeps_products_DeleteProduct id :
  keeps R (products_service.DeleteProduct id).
Proof using R_refl R_trans R_faults R_delete_product.
  unfold products_service.DeleteProduct, products_repository.DeleteProduct.
  apply keeps_wrapf.
  apply (keeps_bind R R_trans).
  - apply keeps_scan, (keeps_pool_exec R R_trans R_faults).
    intros w. apply R_delete_product.
  - intros n. destruct (n =? 0)%nat; [by apply keeps_raise | by apply keeps_ret].
Qed.

Lemma keeps_products_GetProductByID id :
  keeps R (products_service.GetProductByID id).
Proof using R_refl R_trans R_faults.
  apply keeps_wrapf. by apply keeps_GetProductByID.
Qed.

Lemma keeps_orders_GetOrderByID id : keeps R (orders_service.GetOrderByID id).
Proof using R_refl R_trans R_faults.
  apply keeps_wrapf. by apply keeps_GetOrderByID.
Qed.

Lemma keeps_service_UpdateProduct id req :
  keeps R (service.UpdateProduct id req).
Proof using R_refl R_trans R_faults R_update_product.
  unfold service.UpdateProduct.
  apply (keeps_bind R R_trans); [ | intros _; by apply keeps_ret].
  apply keeps_wrapf. by apply keeps_UpdateProduct.
Qed.

Lemma keeps_service_UpdateStatus id status :
  keeps R (service.UpdateStatus id status).
Proof using R_refl R_trans R_faults R_update_order_status.
  unfold service.UpdateStatus.
  apply (keeps_bind R R_trans).
  - apply keeps_wrapf. by apply keeps_GetOrderByID.
  - intros o. destruct (_ || _); [by apply keeps_raise | ].
    apply (keeps_bind R R_trans); [ | intros _; by apply keeps_ret].
    apply keeps_wrapf. by apply keeps_UpdateOrderStatus.
Qed.

End KeepsCatalog.

(** ** Reads, and refusals of CancelOrder, leave the store alone *)

Lemma store_kept_refl w : store_kept w w.
Proof. done. Qed.

Lemma store_kept_trans w1 w2 w3 :
  store_kept w1 w2 -> store_kept w2 w3 -> store_kept w1 w3.
Proof. unfold store_kept. by intros -> ->. Qed.

Lemma store_kept_faults w : store_kept w (set_faults w (tail (faults w))).
Proof. done. Qed.

(** Reading a product or an order never changes the store, whether the
    read succeeds, finds nothing, or fails on the connection. *)
Theorem reads_keep_the_store (id : string) (w : World) :
  db (snd (products_service.GetProductByID id w)) = db w
  /\ db (snd (orders_service.GetOrderByID id w)) = db w.
Proof.
  split.
  - apply (keeps_products_GetProductByID store_kept store_kept_refl
             store_kept_trans store_kept_faults).
  - apply (keeps_orders_GetOrderByID store_kept store_kept_refl
             store_kept_trans store_kept_faults).
Qed.

Lemma GetOrderByID_Ok id w o w1 :
  repository.GetOrderByID id w = (Ok o, w1) ->
  exists row,
    pg.orders (db w) !! id = Some row
    /\ o = models.mkOrder id (pg.o_user_id row) (pg.o_status row)
             (pg.o_total_amount row) (pg.select_order_items id (db w))
    /\ db w1 = db w /\ tx w1 = tx w
    /\ ksuid_src w1 = ksuid_src w /\ ksuid_n w1 = ksuid_n w.
Proof.
  unfold repository.GetOrderByID. intros H.
  apply bind_Ok in H as (o1 & wa & H1 & H).
  apply scan_pool_exec_Ok in H1 as (d & H1 & ->).
  apply bind_Ok in H as (items & wb & H2 & H).
  apply scan_pool_exec_Ok in H2 as (d2 & H2 & ->).
  injection H as <- <-. injection H2 as <- <-. simpl in *.
  unfold pg.select_order in H1.
  destruct (pg.orders (db w) !! id) as [row|]; [ | discriminate].
  injection H1 as <- <-. exists row. by repeat split.
Qed.

(** CancelOrder on an order that does not exist, that belongs to somebody
    else, or that is not pending fails and leaves the store as it was,
    whatever the state of the connection. *)
Theorem CancelOrder_refused_changes_nothing (w : World) (id userID : string) :
  (forall row,
     pg.orders (db w) !! id = Some row ->
     pg.o_user_id row <> userID \/ pg.o_status row <> models.StatusPending) ->
  (exists e, fst (service.CancelOrder id userID w) = Err e)
  /\ db (snd (service.CancelOrder id userID w)) = db w.
Proof.
  intros Hrefuse. unfold service.CancelOrder.
  pose proof (keeps_GetOrderByID store_kept store_kept_refl store_kept_trans
                store_kept_faults id w) as Hkept.
  unfold bind, wrapf.
  destruct (repository.GetOrderByID id w) as [[o|e] w1] eqn:Hget;
    simpl in Hkept.
  - apply GetOrderByID_Ok in Hget as (row & Hrow & -> & _). simpl.
    destruct (bool_decide_reflect (pg.o_user_id row = userID)) as [Hu|Hu];
      simpl; [ | eauto].
    destruct (bool_decide_reflect (pg.o_status row = models.StatusPending))
      as [Hs|Hs]; simpl; [ | eauto].
    by destruct (Hrefuse row Hrow).
  - simpl. eauto.
Qed.

Lemma CancelOrder_refused_changes_nothing_witness :
  (exists e, fst (service.CancelOrder "o1" "bob" example.world1_outage) = Err e)
  /\ db (snd (service.CancelOrder "o1" "bob" example.world1_outage))
     = db example.world1_outage.
Proof.
  apply (CancelOrder_refused_changes_nothing example.world1_outage "o1" "bob").
  intros row Hrow. vm_compute in Hrow. injection Hrow as <-.
  left. simpl. discriminate.
Defined.

(** ** The catalog: creating, updating and deleting products *)

Lemma leb_zero_not_pos p :
  PrimFloat.leb p 0 = true -> PrimFloat.ltb 0 p = false.
Proof.
  rewrite leb_spec, ltb_spec.
  change (Prim2SF 0) with (S754_zero false).
  unfold SFleb, SFltb.
  destruct (Prim2SF p) as [s| s | |s m e]; simpl; try done.
  - by destruct s.
  - by destruct s.
Qed.

Lemma scan_pool_exec_refused {A} (stmt : pg.DB -> (pg.pgerr + A) * pg.DB)
    on_err w :
  (forall d, exists c, stmt d = (inl c, d)) ->
  exists e,
    scan (pool_exec stmt) on_err w = (Err e, set_faults w (tail (faults w))).
Proof.
  intros Hstmt. unfold scan, pool_exec, round_trip.
  destruct (hd false (faults w)); [eauto | ].
  destruct (Hstmt (db (set_faults w (tail (faults w))))) as (c & ->).
  rewrite set_db_same. eauto.
Qed.

Lemma insert_product_bad p d :
  PrimFloat.leb (models.Product_Price p) 0 = true
  \/ (models.Product_StockQuantity p < 0)%Z
  \/ (2 ^ 31 <= models.Product_StockQuantity p)%Z ->
  exists c, products_sql.insert_product p d = (inl c, d).
Proof.
  intros Hbad. unfold products_sql.insert_product, pg.int4.
  destruct (_ && _)%bool eqn:Hint; simpl; [ | eauto].
  destruct (PrimFloat.ltb 0 _ && _)%bool eqn:Hck; simpl; [ | eauto].
  apply andb_prop in Hint as [_ Hlt%Z.ltb_lt].
  apply andb_prop in Hck as [Hpos Hge%Z.leb_le].
  destruct Hbad as [Hp%leb_zero_not_pos | [? | ?]]; [congruence | lia | lia].
Qed.

Lemma update_product_bad p d :
  PrimFloat.leb (models.Product_Price p) 0 = true
  \/ (models.Product_StockQuantity p < 0)%Z
  \/ (2 ^ 31 <= models.Product_StockQuantity p)%Z ->
  exists c, pg.update_product p d = (inl c, d).
Proof.
  intros Hbad. unfold pg.update_product, pg.int4.
  destruct (_ && _)%bool eqn:Hint; simpl; [ | eauto].
  destruct (pg.products d !! models.Product_ID p); [ | eauto].
  destruct (PrimFloat.ltb 0 _ && _)%bool eqn:Hck; simpl; [ | eauto].
  apply andb_prop in Hint as [_ Hlt%Z.ltb_lt].
  apply andb_prop in Hck as [Hpos Hge%Z.leb_le].
  destruct Hbad as [Hp%leb_zero_not_pos | [? | ?]]; [congruence | lia | lia].
Qed.

(** A price that is zero or negative, a negative stock, or a stock beyond
    the INTEGER column is refused both when a product is created and when
    one is updated: the call returns an error and the store is as it was,
    whatever the state of the connection. *)
Theorem catalog_refuses_bad_values (req : models.CreateProductRequest)
    (id : string) (w : World) :
  PrimFloat.leb (models.Req_Price req) 0 = true
  \/ (models.Req_StockQuantity req < 0)%Z
  \/ (2 ^ 31 <= models.Req_StockQuantity req)%Z ->
  ((exists e, fst (products_service.CreateProduct req w) = Err e)
   /\ db (snd (products_service.CreateProduct req w)) = db w)
  /\ ((exists e, fst (service.UpdateProduct id req w) = Err e)
      /\ db (snd (service.UpdateProduct id req w)) = db w).
Proof.
  intros Hbad. split.
  - assert (exists e w2, products_service.CreateProduct req w = (Err e, w2)
                         /\ db w2 = db w) as (e & w2 & -> & Hdb); [ | eauto].
    unfold products_service.CreateProduct, products_repository.CreateProduct.
    unfold bind at 1. unfold GenerateID at 1.
    match goal with
    | |- context [scan (pool_exec (products_sql.insert_product ?p)) ?on_err] =>
        destruct (scan_pool_exec_refused (products_sql.insert_product p)
                    on_err
                    (mkWorld (db w) (tx w) (faults w) (ksuid_src w)
                       (S (ksuid_n w)))
                    (fun d => insert_product_bad p d Hbad)) as (e & He)
    end.
    rewrite (bind_run_Err _ _ _ _ _ (wrapf_run_Err _ _ _ _ _ He)).
    eauto.
  - assert (exists e w2, service.UpdateProduct id req w = (Err e, w2)
                         /\ db w2 = db w) as (e & w2 & -> & Hdb); [ | eauto].
    unfold service.UpdateProduct, repository.UpdateProduct.
    match goal with
    | |- context [scan (pool_exec (pg.update_product ?p)) ?on_err] =>
        destruct (scan_pool_exec_refused (pg.update_product p) on_err w
                    (fun d => update_product_bad p d Hbad)) as (e & He)
    end.
    rewrite (bind_run_Err _ _ _ _ _ (wrapf_run_Err _ _ _ _ _ He)).
    eauto.
Qed.

Lemma catalog_refuses_bad_values_witness :
  ((exists e, fst (products_service.CreateProduct example.free_ink
                     example.world1_outage) = Err e)
   /\ db (snd (products_service.CreateProduct example.free_ink
                 example.world1_outage)) = db example.world1_outage)
  /\ ((exists e, fst (service.UpdateProduct "P" example.free_ink
                        example.world1_outage) = Err e)
      /\ db (snd (service.UpdateProduct "P" example.free_ink
                    example.world1_outage)) = db example.world1_outage).
Proof.
  apply (catalog_refuses_bad_values example.free_ink "P" example.world1_outage).
  left. vm_compute. reflexivity.
Defined.

Lemma insert_product_Ok p d d' :
  products_sql.insert_product p d = (inr tt, d') ->
  pg.products d !! models.Product_ID p = None
  /\ PrimFloat.ltb 0 (models.Product_Price p) = true
  /\ (0 <= models.Product_StockQuantity p < 2 ^ 31)%Z
  /\ d' = pg.set_products d
            (<[models.Product_ID p :=
                 pg.mkProductRow (models.Product_Name p)
                   (models.Product_Description p) (models.Product_Price p)
                   (models.Product_StockQuantity p)]> (pg.products d)).
Proof.
  unfold products_sql.insert_product, pg.int4.
  destruct (_ && _)%bool eqn:Hint; simpl; [ | discriminate].
  destruct (PrimFloat.ltb 0 _ && _)%bool eqn:Hck; simpl; [ | discriminate].
  destruct (bool_decide_reflect
              (is_Some (pg.products d !! models.Product_ID p))) as [Hs|Hs];
    [discriminate | ].
  intros [= <-].
  apply andb_prop in Hint as [_ Hlt%Z.ltb_lt].
  apply andb_prop in Hck as [Hpos Hge%Z.leb_le].
  repeat split; try done. by apply eq_None_not_Some.
Qed.

Lemma CreateProduct_Ok req w p w' :
  products_service.CreateProduct req w = (Ok p, w') ->
  p = models.mkProduct (ksuid_src w (ksuid_n w)) (models.Req_Name req)
        (models.Req_Description req) (models.Req_Price req)
        (models.Req_StockQuantity req)
  /\ pg.products (db w) !! models.Product_ID p = None
  /\ PrimFloat.ltb 0 (models.Req_Price req) = true
  /\ (0 <= models.Req_StockQuantity req < 2 ^ 31)%Z
  /\ db w' = pg.set_products (db w)
               (<[models.Product_ID p :=
                    pg.mkProductRow (models.Req_Name req)
                      (models.Req_Description req) (models.Req_Price req)
                      (models.Req_StockQuantity req)]> (pg.products (db w))).
Proof.
  unfold products_service.CreateProduct, products_repository.CreateProduct.
  intros H.
  apply bind_Ok in H as (id & w1 & Hid & H).
  unfold GenerateID in Hid. injection Hid as <- <-.
  apply bind_Ok in H as ([] & w2 & Hins & H).
  injection H as <- <-.
  apply wrapf_Ok, scan_pool_exec_Ok in Hins as (d & Hins & ->).
  apply insert_product_Ok in Hins as (Hnew & Hpos & Hst & ->).
  simpl in *. repeat split; try done; lia.
Qed.

(** A product that CreateProduct has returned was stored under an id no
    product had before, and on a healthy connection GetProductByID then
    answers with that id and the name, description and stock of the
    request. *)
Theorem CreateProduct_then_GetProductByID (req : models.CreateProductRequest)
    (w w' : World) (p : models.Product) :
  products_service.CreateProduct req w = (Ok p, w') ->
  healthy w' ->
  pg.products (db w) !! models.Product_ID p = None
  /\ exists p',
       products_service.GetProductByID (models.Product_ID p) w' = (Ok p', w')
       /\ models.Product_ID p' = models.Product_ID p
       /\ models.Product_Name p' = models.Req_Name req
       /\ models.Product_Description p' = models.Req_Description req
       /\ models.Product_StockQuantity p' = models.Req_StockQuantity req.
Proof.
  intros H Hh.
  apply CreateProduct_Ok in H as (-> & Hnew & _ & _ & Hdb).
  split; [done | ]. simpl in *.
  eexists. split.
  - unfold products_service.GetProductByID.
    apply wrapf_run_Ok, GetProductByID_healthy; [done | ].
    rewrite Hdb. simpl. apply lookup_insert_eq.
  - done.
Qed.

Lemma CreateProduct_then_GetProductByID_witness :
  pg.products (db example.world0) !! "item-" = None
  /\ exists p',
       products_service.GetProductByID "item-" example.world0_ink
       = (Ok p', example.world0_ink)
       /\ models.Product_ID p' = "item-"
       /\ models.Product_Name p' = "ink"
       /\ models.Product_Description p' = "black"
       /\ models.Product_StockQuantity p' = 7%Z.
Proof.
  apply (CreateProduct_then_GetProductByID example.ink example.world0
           example.world0_ink
           (models.mkProduct "item-" "ink" "black" 4%float 7)).
  - vm_compute. reflexivity.
  - vm_compute. reflexivity.
Defined.

Lemma insert_product_ledger p d :
  pg.users (snd (products_sql.insert_product p d)) = pg.users d
  /\ pg.orders (snd (products_sql.insert_product p d)) = pg.orders d
  /\ pg.order_items (snd (products_sql.insert_product p d)) = pg.order_items d.
Proof.
  unfold products_sql.insert_product.
  destruct (negb _); [done | ].
  destruct (negb _); [done | ].
  by destruct (bool_decide _).
Qed.

Lemma delete_product_ledger id d :
  pg.users (snd (products_sql.delete_product id d)) = pg.users d
  /\ pg.orders (snd (products_sql.delete_product id d)) = pg.orders d
  /\ pg.order_items (snd (products_sql.delete_product id d)) = pg.order_items d.
Proof.
  unfold products_sql.delete_product.
  destruct (pg.products d !! id); [ | done].
  by destruct (bool_decide _).
Qed.

Lemma insert_product_Err p d c d' :
  products_sql.insert_product p d = (inl c, d') -> d' = d.
Proof.
  unfold products_sql.insert_product.
  destruct (negb _); [by intros [= _ <-] | ].
  destruct (negb _); [by intros [= _ <-] | ].
  destruct (bool_decide _); [by intros [= _ <-] | discriminate].
Qed.

(** Creating, updating and deleting products never touches users, orders
    or order items, whatever the call returns: in particular deleting a
    product deletes no order item with it. *)
Theorem catalog_writes_keep_the_ledger (req : models.CreateProductRequest)
    (id : string) (w : World) :
  ledger_kept w (snd (products_service.CreateProduct req w))
  /\ ledger_kept w (snd (service.UpdateProduct id req w))
  /\ ledger_kept w (snd (products_service.DeleteProduct id w)).
Proof.
  split; [ | split].
  - apply (keeps_products_CreateProduct ledger_kept ledger_kept_refl
             ledger_kept_trans); [by intros w0 | by intros w0 | ].
    intros w0 p. apply insert_product_ledger.
  - apply (keeps_service_UpdateProduct ledger_kept ledger_kept_refl
             ledger_kept_trans); [by intros w0 | ].
    intros w0 p. apply update_product_ledger.
  - apply (keeps_products_DeleteProduct ledger_kept ledger_kept_refl
             ledger_kept_trans); [by intros w0 | ].
    intros w0 id0. apply delete_product_ledger.
Qed.

(** CreateProduct never replaces or removes a product: every product of
    the catalog is still there, unchanged, after the call, even when the
    id generator repeats an id. *)
Theorem CreateProduct_never_overwrites (req : models.CreateProductRequest)
    (w : World) :
  pg.products (db w)
  ⊆ pg.products (db (snd (products_service.CreateProduct req w))).
Proof.
  apply (keeps_products_CreateProduct
           (fun w w' => pg.products (db w) ⊆ pg.products (db w'))).
  - done.
  - intros w1 w2 w3 H12 H23. by etrans.
  - done.
  - done.
  - intros w0 p. simpl.
    destruct (products_sql.insert_product p (db w0)) as [[c|[]] d] eqn:Hins.
    + by rewrite (insert_product_Err _ _ _ _ Hins).
    + apply insert_product_Ok in Hins as (Hnew & _ & _ & ->). simpl.
      by apply insert_subseteq.
Qed.

(** *** Deleting *)

Lemma DeleteProduct_Ok id w w' :
  products_service.DeleteProduct id w = (Ok tt, w') ->
  is_Some (pg.products (db w) !! id)
  /\ Forall (fun i => pg.oi_product_id i <> id) (pg.order_items (db w))
  /\ db w' = pg.set_products (db w) (delete id (pg.products (db w))).
Proof.
  unfold products_service.DeleteProduct, products_repository.DeleteProduct.
  intros H. apply wrapf_Ok, bind_Ok in H as (n & w1 & Hdel & H).
  apply scan_pool_exec_Ok in Hdel as (d & Hdel & ->).
  unfold products_sql.delete_product in Hdel. simpl in Hdel.
  destruct (pg.products (db w) !! id) as [r|] eqn:Hr.
  - destruct (bool_decide_reflect
                (Exists (fun i => pg.oi_product_id i = id)
                        (pg.order_items (db w)))) as [Hex|Hex];
      [discriminate | ].
    injection Hdel as <- <-. simpl in H. injection H as <-.
    split; [by eexists | split; [ | done]].
    by apply Forall_Exists_neg in Hex.
  - injection Hdel as <- <-. simpl in H. discriminate.
Qed.

Lemma DeleteProduct_Err id w e w' :
  products_service.DeleteProduct id w = (Err e, w') -> db w' = db w.
Proof.
  unfold products_service.DeleteProduct, products_repository.DeleteProduct.
  intros H. apply wrapf_Err in H as (e0 & -> & H).
  unfold bind, scan, pool_exec, round_trip in H.
  destruct (hd false (faults w)); [by injection H as _ <- | ].
  unfold products_sql.delete_product in H. simpl in H.
  destruct (pg.products (db w) !! id) as [r|] eqn:Hr.
  - destruct (bool_decide _); simpl in H; [by injection H as _ <- | ].
    discriminate.
  - simpl in H. by injection H as _ <-.
Qed.

(** A product that an order item refers to cannot be deleted: DeleteProduct
    returns an error and the store is as it was, whatever the state of the
    connection (the foreign key of [order_items] is ON DELETE RESTRICT). *)
Theorem DeleteProduct_is_restricted (id : string) (w : World) :
  Exists (fun i => pg.oi_product_id i = id) (pg.order_items (db w)) ->
  (exists e, fst (products_service.DeleteProduct id w) = Err e)
  /\ db (snd (products_service.DeleteProduct id w)) = db w.
Proof.
  intros Hex.
  destruct (products_service.DeleteProduct id w) as [[[]|e] w'] eqn:Hrun.
  - apply DeleteProduct_Ok in Hrun as (_ & Hno & _).
    by apply Forall_Exists_neg in Hno.
  - apply DeleteProduct_Err in Hrun. simpl. eauto.
Qed.

Lemma DeleteProduct_is_restricted_witness :
  (exists e, fst (products_service.DeleteProduct "P" example.world1) = Err e)
  /\ db (snd (products_service.DeleteProduct "P" example.world1))
     = db example.world1.
Proof.
  apply (DeleteProduct_is_restricted "P" example.world1).
  apply Exists_cons_hd. reflexivity.
Defined.

(** What the delete endpoint answers on a healthy connection: 404 for a
    product that does not exist; 500 INTERNAL_ERROR for a product some
    order item refers to, the world staying as it was; 204 for any other
    product, which is then gone from the catalog. *)
Theorem DeleteProduct_answers (id : string) (w : World) :
  healthy w ->
  (pg.products (db w) !! id = None ->
   handler.DeleteProduct id w
   = (handler.mkResponse 404
        (handler.ErrorBody (handler.mkErrorResponse "NOT_FOUND"
                              "Resource not found")), w))
  /\ (is_Some (pg.products (db w) !! id) ->
      Exists (fun i => pg.oi_product_id i = id) (pg.order_items (db w)) ->
      handler.DeleteProduct id w
      = (handler.mkResponse 500
           (handler.ErrorBody (handler.mkErrorResponse "INTERNAL_ERROR"
                                 "An unexpected error occurred")), w))
  /\ (is_Some (pg.products (db w) !! id) ->
      Forall (fun i => pg.oi_product_id i <> id) (pg.order_items (db w)) ->
      handler.DeleteProduct id w
      = (handler.mkResponse 204 handler.NoBody,
         set_db w (pg.set_products (db w) (delete id (pg.products (db w)))))).
Proof.
  intros H.
  unfold handler.DeleteProduct, handler.answer, products_service.DeleteProduct,
    products_repository.DeleteProduct, wrapf, bind, scan.
  rewrite (pool_exec_healthy _ _ H). unfold products_sql.delete_product.
  split; [ | split].
  - intros ->. simpl. by rewrite set_db_same.
  - intros [r ->] Hex. rewrite bool_decide_eq_true_2 by done.
    simpl. by rewrite set_db_same.
  - intros [r ->] Hno. rewrite bool_decide_eq_false_2; [done | ].
    by apply Forall_Exists_neg.
Qed.

Lemma DeleteProduct_answers_witness :
  handler.DeleteProduct "R" example.world1
  = (handler.mkResponse 404
       (handler.ErrorBody (handler.mkErrorResponse "NOT_FOUND"
                             "Resource not found")), example.world1)
  /\ handler.DeleteProduct "P" example.world1
     = (handler.mkResponse 500
          (handler.ErrorBody (handler.mkErrorResponse "INTERNAL_ERROR"
                                "An unexpected error occurred")),
        example.world1)
  /\ handler.DeleteProduct "Q" example.world0
     = (handler.mkResponse 204 handler.NoBody,
        set_db example.world0
          (pg.set_products (db example.world0)
             (delete "Q" (pg.products (db example.world0))))).
Proof.
  split; [ | split].
  - apply (proj1 (DeleteProduct_answers "R" example.world1 eq_refl)).
    vm_compute. reflexivity.
  - apply (proj1 (proj2 (DeleteProduct_answers "P" example.world1 eq_refl))).
    + vm_compute. eexists. reflexivity.
    + apply Exists_cons_hd. reflexivity.
  - apply (proj2 (proj2 (DeleteProduct_answers "Q" example.world0 eq_refl))).
    + vm_compute. eexists. reflexivity.
    + apply Forall_nil_2.
Defined.

(** After a DeleteProduct that succeeded, no order item refers to the
    product, every other product is as it was, and on a healthy connection
    the product endpoint answers 404 for the deleted id. *)
Theorem DeleteProduct_then_GetProduct (id : string) (w w' : World) :
  products_service.DeleteProduct id w = (Ok tt, w') ->
  healthy w' ->
  Forall (fun i => pg.oi_product_id i <> id) (pg.order_items (db w'))
  /\ (forall id', id' <> id ->
        pg.products (db w') !! id' = pg.products (db w) !! id')
  /\ handler.GetProduct id w'
     = (handler.mkResponse 404
          (handler.ErrorBody (handler.mkErrorResponse "NOT_FOUND"
                                "Resource not found")), w').
Proof.
  intros Hrun Hh.
  apply DeleteProduct_Ok in Hrun as (_ & Hno & Hdb).
  split; [by rewrite Hdb | split].
  - intros id' Hne. rewrite Hdb. simpl. by apply lookup_delete_ne.
  - assert (Hgone : pg.products (db w') !! id = None)
      by (rewrite Hdb; simpl; apply lookup_delete_eq).
    unfold handler.GetProduct, handler.answer, products_service.GetProductByID.
    by rewrite (wrapf_run_Err _ _ _ _ _ (GetProductByID_missing id w' Hh Hgone)).
Qed.

Lemma DeleteProduct_then_GetProduct_witness :
  Forall (fun i => pg.oi_product_id i <> "Q")
         (pg.order_items (db example.world0_no_quill))
  /\ (forall id', id' <> "Q" ->
        pg.products (db example.world0_no_quill) !! id'
        = pg.products (db example.world0) !! id')
  /\ handler.GetProduct "Q" example.world0_no_quill
     = (handler.mkResponse 404
          (handler.ErrorBody (handler.mkErrorResponse "NOT_FOUND"
                                "Resource not found")),
        example.world0_no_quill).
Proof.
  apply (DeleteProduct_then_GetProduct "Q" example.world0
           example.world0_no_quill).
  - vm_compute. reflexivity.
  - vm_compute. reflexivity.
Defined.

(** *** Updating *)

Lemma service_UpdateProduct_Ok id req w p w' :
  service.UpdateProduct id req w = (Ok p, w') ->
  p = models.mkProduct id (models.Req_Name req) (models.Req_Description req)
        (models.Req_Price req) (models.Req_StockQuantity req)
  /\ is_Some (pg.products (db w) !! id)
  /\ db w' = pg.set_products (db w)
               (<[id := pg.mkProductRow (models.Req_Name req)
                          (models.Req_Description req) (models.Req_Price req)
                          (models.Req_StockQuantity req)]>
                  (pg.products (db w))).
Proof.
  unfold service.UpdateProduct. intros H.
  apply bind_Ok in H as ([] & w1 & Hup & H). injection H as <- <-.
  apply wrapf_Ok, UpdateProduct_Ok in Hup as (d & Hup & ->).
  apply update_product_Ok in Hup as (Hsome & _ & ->). simpl in *.
  by repeat split.
Qed.

(** A product that UpdateProduct has returned existed before the call;
    every other product is as it was, and on a healthy connection
    GetProductByID then answers with the id, name, description and stock
    of the update. *)
Theorem UpdateProduct_then_GetProductByID (id : string)
    (req : models.CreateProductRequest) (w w' : World) (p : models.Product) :
  service.UpdateProduct id req w = (Ok p, w') ->
  healthy w' ->
  is_Some (pg.products (db w) !! id)
  /\ (forall id', id' <> id ->
        pg.products (db w') !! id' = pg.products (db w) !! id')
  /\ exists p',
       products_service.GetProductByID id w' = (Ok p', w')
       /\ models.Product_ID p' = id
       /\ models.Product_Name p' = models.Req_Name req
       /\ models.Product_Description p' = models.Req_Description req
       /\ models.Product_StockQuantity p' = models.Req_StockQuantity req.
Proof.
  intros H Hh.
  apply service_UpdateProduct_Ok in H as (-> & Hsome & Hdb).
  split; [done | split].
  - intros id' Hne. rewrite Hdb. simpl. by apply lookup_insert_ne.
  - eexists. split.
    + unfold products_service.GetProductByID.
      apply wrapf_run_Ok, GetProductByID_healthy; [done | ].
      rewrite Hdb. simpl. apply lookup_insert_eq.
    + done.
Qed.

Lemma UpdateProduct_then_GetProductByID_witness :
  is_Some (pg.products (db example.world1) !! "P")
  /\ (forall id', id' <> "P" ->
        pg.products (db example.world1_pen_is_ink) !! id'
        = pg.products (db example.world1) !! id')
  /\ exists p',
       products_service.GetProductByID "P" example.world1_pen_is_ink
       = (Ok p', example.world1_pen_is_ink)
       /\ models.Product_ID p' = "P"
       /\ models.Product_Name p' = "ink"
       /\ models.Product_Description p' = "black"
       /\ models.Product_StockQuantity p' = 7%Z.
Proof.
  apply (UpdateProduct_then_GetProductByID "P" example.ink example.world1
           example.world1_pen_is_ink
           (models.mkProduct "P" "ink" "black" 4%float 7)).
  - vm_compute. reflexivity.
  - vm_compute. reflexivity.
Defined.

(** Updating a product that does not exist is ErrNotFound with the
    service's context around it, answered 404, and changes nothing (on a
    healthy connection, for a stock the INTEGER column can hold). *)
Theorem UpdateProduct_of_missing_product (id : string)
    (req : models.CreateProductRequest) (w : World) :
  healthy w ->
  pg.products (db w) !! id = None ->
  (- 2 ^ 31 <= models.Req_StockQuantity req < 2 ^ 31)%Z ->
  service.UpdateProduct id req w
  = (Err (pkg.Wrap "updating product" pkg.ErrNotFound), w)
  /\ handler.handleError (pkg.Wrap "updating product" pkg.ErrNotFound)
     = handler.mkResponse 404
         (handler.ErrorBody (handler.mkErrorResponse "NOT_FOUND"
                               "Resource not found")).
Proof.
  intros H Hnone Hint. split; [ | done].
  unfold service.UpdateProduct, repository.UpdateProduct, bind, wrapf, scan.
  rewrite (pool_exec_healthy _ _ H).
  unfold pg.update_product, pg.int4. simpl.
  replace ((- 2 ^ 31 <=? models.Req_StockQuantity req)%Z
           && (models.Req_StockQuantity req <? 2 ^ 31)%Z)%bool with true
    by (symmetry; apply andb_true_intro; split;
        [apply Z.leb_le | apply Z.ltb_lt]; lia).
  simpl. rewrite Hnone. simpl. by rewrite set_db_same.
Qed.

Lemma UpdateProduct_of_missing_product_witness :
  service.UpdateProduct "R" example.ink example.world1
  = (Err (pkg.Wrap "updating product" pkg.ErrNotFound), example.world1)
  /\ handler.handleError (pkg.Wrap "updating product" pkg.ErrNotFound)
     = handler.mkResponse 404
         (handler.ErrorBody (handler.mkErrorResponse "NOT_FOUND"
                               "Resource not found")).
Proof.
  apply (UpdateProduct_of_missing_product "R" example.ink example.world1).
  - reflexivity.
  - vm_compute. reflexivity.
  - simpl. lia.
Defined.

(** ** Histories of requests of every kind *)

(** *** The schema *)

Lemma schema_insert_product p D :
  schema_ok D -> schema_ok (snd (products_sql.insert_product p D)).
Proof.
  intros HD.
  destruct (products_sql.insert_product p D) as [[c|[]] D'] eqn:Hins.
  - by rewrite (insert_product_Err _ _ _ _ Hins).
  - apply insert_product_Ok in Hins as (Hnew & Hprice & Hstock & ->).
    destruct HD as (Hp & Ho & Hi & Hids & Hpairs). simpl.
    split_schema.
    + by apply map_Forall_insert_2.
    + eapply Forall_impl; [exact Hi | ].
      intros i (? & ? & ? & Hfk).
      split; [done | split; [done | split; [done | ]]].
      apply lookup_insert_is_Some'. by right.
Qed.

Lemma schema_delete_product id D :
  schema_ok D -> schema_ok (snd (products_sql.delete_product id D)).
Proof.
  intros HD. unfold products_sql.delete_product.
  destruct (pg.products D !! id) as [r|] eqn:Hr; [ | done].
  destruct (bool_decide_reflect
              (Exists (fun i => pg.oi_product_id i = id) (pg.order_items D)))
    as [Hex|Hex]; [done | ].
  apply Forall_Exists_neg in Hex.
  destruct HD as (Hp & Ho & Hi & Hids & Hpairs).
  split_schema.
  - by apply map_Forall_delete.
  - apply Forall_forall. intros i Hin.
    rewrite Forall_forall in Hi, Hex.
    destruct (Hi i Hin) as (? & ? & ? & Hfk).
    split; [done | split; [done | split; [done | ]]].
    rewrite lookup_delete_ne; [done | ]. intros Heq. by apply (Hex i Hin).
Qed.

Lemma schema_kept_refl w : schema_kept w w.
Proof. by intros ?. Qed.

Lemma schema_kept_trans w1 w2 w3 :
  schema_kept w1 w2 -> schema_kept w2 w3 -> schema_kept w1 w3.
Proof. unfold schema_kept. auto. Qed.

Lemma schema_kept_faults w : schema_kept w (set_faults w (tail (faults w))).
Proof. by intros ?. Qed.

Lemma schema_kept_ids w :
  schema_kept w (mkWorld (db w) (tx w) (faults w) (ksuid_src w) (S (ksuid_n w))).
Proof. by intros ?. Qed.

Lemma schema_kept_update_product w p :
  schema_kept w (set_db w (snd (pg.update_product p (db w)))).
Proof. intros H. by apply schema_update_product. Qed.

Lemma schema_kept_update_order_status w id s :
  schema_kept w (set_db w (snd (pg.update_order_status id s (db w)))).
Proof. intros H. by apply schema_update_order_status. Qed.

Lemma consistency_kept_refl w : consistency_kept w w.
Proof. by intros ?. Qed.

Lemma consistency_kept_trans w1 w2 w3 :
  consistency_kept w1 w2 -> consistency_kept w2 w3 -> consistency_kept w1 w3.
Proof. unfold consistency_kept. auto. Qed.

Lemma consistency_kept_faults w :
  consistency_kept w (set_faults w (tail (faults w))).
Proof. by intros ?. Qed.

Lemma consistency_kept_ids w :
  consistency_kept w
    (mkWorld (db w) (tx w) (faults w) (ksuid_src w) (S (ksuid_n w))).
Proof. by intros ?. Qed.

Lemma consistency_kept_insert_order w o :
  consistency_kept w (set_tx w (snd (pg.insert_order o (db w) (tx w)))).
Proof. intros [Hd Hv]. split; [done | ]. by apply schema_view_insert_order. Qed.

Lemma consistency_kept_insert_order_item w i :
  consistency_kept w (set_tx w (snd (pg.insert_order_item i (db w) (tx w)))).
Proof.
  intros [Hd Hv]. split; [done | ]. by apply schema_view_insert_order_item.
Qed.

Lemma consistency_kept_update_product w p :
  consistency_kept w (set_db w (snd (pg.update_product p (db w)))).
Proof.
  intros [Hd Hv]. split; [by apply schema_update_product | ].
  unfold tx_view. simpl. rewrite update_product_apply_tx.
  by apply schema_update_product.
Qed.

Lemma consistency_kept_update_order_status w id s :
  consistency_kept w (set_db w (snd (pg.update_order_status id s (db w)))).
Proof.
  intros [Hd Hv]. split; [by apply schema_update_order_status | ].
  by apply schema_view_update_order_status.
Qed.

(** A transaction whose body keeps both the committed tables and its own
    view of them within the schema leaves the committed tables within the
    schema, committed or rolled back, whatever buffer an earlier
    transaction left behind. *)
Lemma WithTransaction_schema fn :
  (forall t, keeps consistency_kept (fn t)) ->
  keeps schema_kept (repository.WithTransaction fn).
Proof.
  intros Hfn w Hd.
  unfold repository.WithTransaction, bind, repository.BeginTx, round_trip.
  destruct (hd false (faults w)); [done | ].
  set (w1 := set_tx (set_faults w (tail (faults w))) pg.TxBuf_empty).
  assert (Hc1 : consistent w1).
  { split; [done | ]. unfold tx_view. simpl. by rewrite apply_tx_empty. }
  pose proof (Hfn repository.TheTx w1 Hc1) as Hc2.
  destruct (fn repository.TheTx w1) as [[[]|e] w2]; simpl in Hc2.
  - unfold repository.Commit, round_trip.
    destruct (hd false (faults w2)); simpl; [apply Hc2 | apply Hc2].
  - unfold repository.Rollback, round_trip.
    destruct (hd false (faults w2)); simpl; apply Hc2.
Qed.

Lemma schema_kept_CreateOrder userID req :
  keeps schema_kept (service.CreateOrder userID req).
Proof.
  apply WithTransaction_schema. intros t.
  exact (keeps_CreateOrder_fn consistency_kept consistency_kept_refl
           consistency_kept_trans consistency_kept_faults
           consistency_kept_insert_order consistency_kept_insert_order_item
           consistency_kept_ids consistency_kept_update_product userID req t).
Qed.

Lemma schema_kept_CancelOrder id userID :
  keeps schema_kept (service.CancelOrder id userID).
Proof.
  unfold service.CancelOrder.
  apply (keeps_bind schema_kept schema_kept_trans).
  - apply keeps_wrapf.
    exact (keeps_GetOrderByID schema_kept schema_kept_refl schema_kept_trans
             schema_kept_faults id).
  - intros o.
    destruct (negb _); [apply keeps_raise, schema_kept_refl | ].
    destruct (negb _); [apply keeps_raise, schema_kept_refl | ].
    apply WithTransaction_schema. intros t.
    exact (keeps_CancelOrder_fn consistency_kept consistency_kept_refl
             consistency_kept_trans consistency_kept_faults
             consistency_kept_update_product
             consistency_kept_update_order_status id o t).
Qed.

Lemma schema_kept_by_requests (r : request) (w : World) :
  schema_kept w (serve r w).
Proof.
  destruct r as [userID req | id userID | id status | id | req | id req
                 | id | id]; simpl.
  - apply schema_kept_CreateOrder.
  - apply schema_kept_CancelOrder.
  - exact (keeps_service_UpdateStatus schema_kept schema_kept_refl
             schema_kept_trans schema_kept_faults
             schema_kept_update_order_status id status w).
  - exact (keeps_orders_GetOrderByID schema_kept schema_kept_refl
             schema_kept_trans schema_kept_faults id w).
  - apply (keeps_products_CreateProduct schema_kept schema_kept_refl
             schema_kept_trans schema_kept_faults schema_kept_ids).
    intros w0 p H. by apply schema_insert_product.
  - exact (keeps_service_UpdateProduct schema_kept schema_kept_refl
             schema_kept_trans schema_kept_faults schema_kept_update_product
             id req w).
  - apply (keeps_products_DeleteProduct schema_kept schema_kept_refl
             schema_kept_trans schema_kept_faults).
    intros w0 id0 H. by apply schema_delete_product.
  - exact (keeps_products_GetProductByID schema_kept schema_kept_refl
             schema_kept_trans schema_kept_faults id w).
Qed.

(** From a store that satisfies the constraints of the migration, every
    sequence of requests to the service (orders created, cancelled, moved
    on, products created, updated, deleted, reads) leads through stores
    that satisfy them, whatever each request returns, whatever the state of
    the connection and whatever an earlier transaction left in its
    buffer. *)
Theorem schema_holds_throughout (rs : list request) (w : World) :
  schema_ok (db w) ->
  Forall (fun w' => schema_ok (db w')) (history rs w).
Proof.
  revert w. induction rs as [|r rs IH]; intros w Hd; simpl; constructor.
  - by apply (schema_kept_by_requests r w).
  - apply IH. by apply (schema_kept_by_requests r w).
Qed.

Lemma schema_holds_throughout_witness :
  Forall (fun w' => schema_ok (db w')) (history example.day example.world0).
Proof.
  apply (schema_holds_throughout example.day example.world0).
  unfold schema_ok. simpl.
  split; [ | split; [ | split; [ | split]]].
  - intros k r Hk. unfold example.catalog in Hk.
    apply lookup_insert_Some in Hk as [[_ <-] | [_ Hk]];
      [simpl; split; [reflexivity | lia] | ].
    apply lookup_insert_Some in Hk as [[_ <-] | [_ Hk]];
      [simpl; split; [reflexivity | lia] | ].
    by rewrite lookup_empty in Hk.
  - apply map_Forall_empty.
  - constructor.
  - constructor.
  - constructor.
Defined.

(** *** The order rows *)

Lemma evolves_refl row : evolves row row.
Proof. by repeat split. Qed.

Lemma evolves_trans r1 r2 r3 : evolves r1 r2 -> evolves r2 r3 -> evolves r1 r3.
Proof.
  unfold evolves. intros (Hu1 & Ht1 & Hs1) (Hu2 & Ht2 & Hs2).
  split; [congruence | split; [congruence | ]].
  intros Hterm. rewrite <- (Hs1 Hterm). apply Hs2. by rewrite (Hs1 Hterm).
Qed.

Lemma orders_evolve_refl w : orders_evolve w w.
Proof. intros id row Hrow. exists row. split; [done | apply evolves_refl]. Qed.

Lemma orders_evolve_trans w1 w2 w3 :
  orders_evolve w1 w2 -> orders_evolve w2 w3 -> orders_evolve w1 w3.
Proof.
  intros H12 H23 id row Hrow.
  destruct (H12 id row Hrow) as (row2 & Hrow2 & He2).
  destruct (H23 id row2 Hrow2) as (row3 & Hrow3 & He3).
  exists row3. split; [done | by eapply evolves_trans].
Qed.

Lemma orders_evolve_same w w' :
  pg.orders (db w') = pg.orders (db w) -> orders_evolve w w'.
Proof.
  intros Heq id row Hrow. exists row. rewrite Heq.
  split; [done | apply evolves_refl].
Qed.

Lemma orders_evolve_status w w' id row s :
  pg.orders (db w) !! id = Some row ->
  ~ terminal (pg.o_status row) ->
  pg.orders (db w')
  = <[id := pg.mkOrderRow (pg.o_user_id row) s (pg.o_total_amount row)]>
      (pg.orders (db w)) ->
  orders_evolve w w'.
Proof.
  intros Hrow Hnt Heq id' row' Hrow'. rewrite Heq.
  destruct (decide (id' = id)) as [-> | Hne].
  - rewrite lookup_insert_eq. eexists. split; [done | ].
    rewrite Hrow in Hrow'. injection Hrow' as <-.
    by repeat split.
  - rewrite lookup_insert_ne by done. exists row'.
    split; [done | apply evolves_refl].
Qed.

(** What [UPDATE orders SET status] on the pool leaves behind, whatever it
    returns: the order rows as they were, or row [id] with its new status. *)
Lemma UpdateOrderStatus_orders id s w :
  tx (snd (repository.UpdateOrderStatus id s w)) = tx w
  /\ pg.products (db (snd (repository.UpdateOrderStatus id s w)))
     = pg.products (db w)
  /\ (pg.orders (db (snd (repository.UpdateOrderStatus id s w)))
      = pg.orders (db w)
      \/ exists row,
           pg.orders (db w) !! id = Some row
           /\ pg.orders (db (snd (repository.UpdateOrderStatus id s w)))
              = <[id := pg.mkOrderRow (pg.o_user_id row) s
                          (pg.o_total_amount row)]> (pg.orders (db w))).
Proof.
  unfold repository.UpdateOrderStatus, scan, pool_exec, round_trip.
  destruct (hd false (faults w)); simpl; [by auto | ].
  unfold pg.update_order_status.
  destruct (pg.orders (db w) !! id) as [row|] eqn:Hrow; simpl; [ | by auto].
  split; [done | split; [done | ]]. right. by exists row.
Qed.

Lemma keeps_catalog_only_CancelOrder_loop items :
  keeps catalog_only (service.CancelOrder_loop items).
Proof.
  apply keeps_CancelOrder_loop.
  - intros w. by repeat split.
  - unfold catalog_only. intros w1 w2 w3 (L1 & -> & -> & ->) (L2 & -> & -> & ->).
    split; [by eapply ledger_kept_trans | done].
  - intros w. by repeat split.
  - intros w p. split; [apply update_product_ledger | done].
Qed.

Lemma CancelOrder_fn_orders id o t w :
  tx (snd (service.CancelOrder_fn id o t w)) = tx w
  /\ (pg.orders (db (snd (service.CancelOrder_fn id o t w)))
      = pg.orders (db w)
      \/ exists row,
           pg.orders (db w) !! id = Some row
           /\ pg.orders (db (snd (service.CancelOrder_fn id o t w)))
              = <[id := pg.mkOrderRow (pg.o_user_id row)
                          models.StatusCancelled (pg.o_total_amount row)]>
                  (pg.orders (db w))).
Proof.
  unfold service.CancelOrder_fn, bind, wrapf.
  pose proof (UpdateOrderStatus_orders id models.StatusCancelled w)
    as (Htx & _ & Ho).
  destruct (repository.UpdateOrderStatus id models.StatusCancelled w)
    as [[[]|e] w1]; simpl in *; [ | done].
  pose proof (keeps_catalog_only_CancelOrder_loop (models.Order_Items o) w1)
    as ((_ & Hsame & _) & Htx' & _).
  rewrite Htx', Hsame. done.
Qed.

(** Where the committed tables of a transaction can end up: untouched (the
    transaction did not begin), as its body left them (rolled back, or the
    commit failed), or with the buffer applied. *)
Lemma WithTransaction_db fn w :
  let w2 := snd (fn repository.TheTx
                   (set_tx (set_faults w (tail (faults w))) pg.TxBuf_empty)) in
  db (snd (repository.WithTransaction fn w)) = db w
  \/ db (snd (repository.WithTransaction fn w)) = db w2
  \/ db (snd (repository.WithTransaction fn w)) = pg.apply_tx (tx w2) (db w2).
Proof.
  unfold repository.WithTransaction, bind, repository.BeginTx, round_trip.
  destruct (hd false (faults w)); simpl; [by left | ].
  destruct (fn repository.TheTx _) as [[[]|e] w2]; simpl.
  - unfold repository.Commit, round_trip.
    destruct (hd false (faults w2)); simpl; auto.
  - unfold repository.Rollback, round_trip.
    destruct (hd false (faults w2)); simpl; auto.
Qed.

Lemma orders_evolve_UpdateStatus id status w :
  orders_evolve w (snd (service.UpdateStatus id status w)).
Proof.
  unfold service.UpdateStatus, bind, wrapf.
  pose proof (keeps_GetOrderByID store_kept store_kept_refl store_kept_trans
                store_kept_faults id w) as Hkept.
  destruct (repository.GetOrderByID id w) as [[o|e] w1] eqn:Hget;
    unfold store_kept in Hkept; simpl in Hkept;
    [ | apply orders_evolve_same; simpl; by rewrite Hkept].
  apply GetOrderByID_Ok in Hget as (row & Hrow & -> & Hdb & _). simpl.
  destruct (bool_decide_reflect (pg.o_status row = models.StatusCancelled))
    as [Hc|Hc]; simpl; [by apply orders_evolve_same; rewrite Hdb | ].
  destruct (bool_decide_reflect (pg.o_status row = models.StatusDelivered))
    as [Hd|Hd]; simpl; [by apply orders_evolve_same; rewrite Hdb | ].
  pose proof (UpdateOrderStatus_orders id status w1) as (_ & _ & Ho).
  destruct (repository.UpdateOrderStatus id status w1) as [[[]|e] w2];
    simpl in *.
  all: destruct Ho as [Ho | (row' & Hrow' & Ho)];
    [apply orders_evolve_same; by rewrite Ho, Hdb | ].
  all: rewrite Hdb in Hrow', Ho; rewrite Hrow in Hrow';
    injection Hrow' as <-.
  all: eapply orders_evolve_status; [exact Hrow | | exact Ho].
  all: by intros [? | ?].
Qed.

Lemma orders_evolve_CancelOrder id userID w :
  orders_evolve w (snd (service.CancelOrder id userID w)).
Proof.
  unfold service.CancelOrder, bind, wrapf.
  pose proof (keeps_GetOrderByID store_kept store_kept_refl store_kept_trans
                store_kept_faults id w) as Hkept.
  destruct (repository.GetOrderByID id w) as [[o|e] w1] eqn:Hget;
    unfold store_kept in Hkept; simpl in Hkept;
    [ | apply orders_evolve_same; simpl; by rewrite Hkept].
  apply GetOrderByID_Ok in Hget as (row & Hrow & -> & Hdb & _). simpl.
  destruct (bool_decide (pg.o_user_id row = userID)); simpl;
    [ | by apply orders_evolve_same; rewrite Hdb].
  destruct (bool_decide_reflect (pg.o_status row = models.StatusPending))
    as [Hp|Hp]; simpl; [ | by apply orders_evolve_same; rewrite Hdb].
  match goal with
  | |- context [repository.WithTransaction ?fn w1] =>
      pose proof (WithTransaction_db fn w1) as Hwt;
      pose proof (CancelOrder_fn_orders id
                    (models.mkOrder id (pg.o_user_id row) (pg.o_status row)
                       (pg.o_total_amount row)
                       (pg.select_order_items id (db w)))
                    repository.TheTx
                    (set_tx (set_faults w1 (tail (faults w1)))
                       pg.TxBuf_empty)) as (Htx & Ho)
  end.
  simpl in Hwt, Htx, Ho.
  assert (Hbody : pg.orders (db (snd (repository.WithTransaction
             (service.CancelOrder_fn id
                (models.mkOrder id (pg.o_user_id row) (pg.o_status row)
                   (pg.o_total_amount row) (pg.select_order_items id (db w))))
             w1)))
           = pg.orders (db w1)
           \/ exists row0,
                pg.orders (db w1) !! id = Some row0
                /\ pg.orders (db (snd (repository.WithTransaction
                     (service.CancelOrder_fn id
                        (models.mkOrder id (pg.o_user_id row) (pg.o_status row)
                           (pg.o_total_amount row)
                           (pg.select_order_items id (db w))))
                     w1)))
                   = <[id := pg.mkOrderRow (pg.o_user_id row0)
                               models.StatusCancelled (pg.o_total_amount row0)]>
                       (pg.orders (db w1))).
  { destruct Hwt as [-> | [-> | ->]]; [by left | exact Ho | ].
    rewrite Htx, apply_tx_empty. exact Ho. }
  destruct Hbody as [Ho' | (row0 & Hrow0 & Ho')].
  - apply orders_evolve_same. by rewrite Ho', Hdb.
  - rewrite Hdb in Hrow0, Ho'. rewrite Hrow in Hrow0. injection Hrow0 as <-.
    eapply orders_evolve_status; [exact Hrow | | exact Ho'].
    rewrite Hp. by intros [? | ?].
Qed.

Lemma orders_evolve_CreateOrder userID req w :
  orders_evolve w (snd (service.CreateOrder userID req w)).
Proof.
  destruct (service.CreateOrder userID req w) as [[[]|e] w'] eqn:Hrun; simpl.
  - apply CreateOrder_Ok in Hrun as (rows & Hnew & _ & Ho & _).
    intros id row Hrow. exists row. rewrite Ho.
    split; [ | apply evolves_refl].
    rewrite lookup_insert_ne; [done | ]. intros <-. congruence.
  - apply failed_CreateOrder_ledger in Hrun as (_ & Ho & _).
    by apply orders_evolve_same.
Qed.

Lemma orders_evolve_ledger w w' : ledger_kept w w' -> orders_evolve w w'.
Proof. intros (_ & Ho & _). by apply orders_evolve_same. Qed.

Lemma orders_evolve_by_requests (r : request) (w : World) :
  orders_evolve w (serve r w).
Proof.
  destruct r as [userID req | id userID | id status | id | req | id req
                 | id | id]; simpl.
  - apply orders_evolve_CreateOrder.
  - apply orders_evolve_CancelOrder.
  - apply orders_evolve_UpdateStatus.
  - apply orders_evolve_same. f_equal.
    exact (keeps_orders_GetOrderByID store_kept store_kept_refl
             store_kept_trans store_kept_faults id w).
  - apply orders_evolve_ledger.
    apply (keeps_products_CreateProduct ledger_kept ledger_kept_refl
             ledger_kept_trans); [by intros w0 | by intros w0 | ].
    intros w0 p. apply insert_product_ledger.
  - apply orders_evolve_ledger, UpdateProduct_keeps_ledger.
  - apply orders_evolve_ledger.
    apply (keeps_products_DeleteProduct ledger_kept ledger_kept_refl
             ledger_kept_trans); [by intros w0 | ].
    intros w0 id0. apply delete_product_ledger.
  - apply orders_evolve_same. f_equal.
    exact (keeps_products_GetProductByID store_kept store_kept_refl
             store_kept_trans store_kept_faults id w).
Qed.

Lemma orders_evolve_serve_all rs : forall w, orders_evolve w (serve_all rs w).
Proof.
  induction rs as [|r rs IH]; intros w; simpl; [apply orders_evolve_refl | ].
  eapply orders_evolve_trans; [apply orders_evolve_by_requests | apply IH].
Qed.

(** No sequence of requests to the service removes an order, gives it to
    another user or changes its total; and an order that is cancelled or
    delivered keeps that status for ever.  This holds whatever the
    requests return and whatever the state of the connection. *)
Theorem orders_only_move_forward (rs : list request) (w : World)
    (id : string) (row : pg.OrderRow) :
  pg.orders (db w) !! id = Some row ->
  exists row',
    pg.orders (db (serve_all rs w)) !! id = Some row'
    /\ pg.o_user_id row' = pg.o_user_id row
    /\ pg.o_total_amount row' = pg.o_total_amount row
    /\ (terminal (pg.o_status row) -> pg.o_status row' = pg.o_status row).
Proof. apply orders_evolve_serve_all. Qed.

Lemma orders_only_move_forward_witness :
  exists row',
    pg.orders (db (serve_all example.o1_story example.world1)) !! "o1"
    = Some row'
    /\ pg.o_user_id row' = "alice"
    /\ pg.o_total_amount row' = 32.5%float
    /\ (terminal models.StatusPending ->
        pg.o_status row' = models.StatusPending).
Proof.
  apply (orders_only_move_forward example.o1_story example.world1 "o1"
           (pg.mkOrderRow "alice" models.StatusPending 32.5%float)).
  vm_compute. reflexivity.
Defined.

(** Once CreateOrder has succeeded, no later CreateOrder succeeds, whoever
    orders whatever, and whatever requests are served in between: the row
    of the first order keeps the one id orders are stored under. *)
Theorem CreateOrder_succeeds_at_most_once (userID : string)
    (req : models.CreateOrderRequest) (w w' : World) (rs : list request)
    (userID' : string) (req' : models.CreateOrderRequest) :
  service.CreateOrder userID req w = (Ok tt, w') ->
  exists e, fst (service.CreateOrder userID' req' (serve_all rs w')) = Err e.
Proof.
  intros Hrun.
  apply CreateOrder_Ok in Hrun as (rows & _ & _ & Ho & _).
  assert (Hrow : pg.orders (db w') !! ""
                 = Some (pg.mkOrderRow userID models.StatusPending
                           (sum_of_lines rows)))
    by (rewrite Ho; apply lookup_insert_eq).
  destruct (orders_evolve_serve_all rs w' "" _ Hrow) as (row' & Hrow' & _).
  destruct (service.CreateOrder userID' req' (serve_all rs w'))
    as [[[]|e] w2] eqn:Hrun'; simpl; [ | eauto].
  apply CreateOrder_Ok in Hrun' as (rows' & Hnew & _). congruence.
Qed.

Lemma CreateOrder_succeeds_at_most_once_witness :
  exists e,
    fst (service.CreateOrder "bob" (example.cart [example.item "Q" 1])
           (serve_all [DoCancelOrder "" "alice"] example.world0_ordered))
    = Err e.
Proof.
  apply (CreateOrder_succeeds_at_most_once "alice" example.cart_PQ
           example.world0 example.world0_ordered
           [DoCancelOrder "" "alice"] "bob"
           (example.cart [example.item "Q" 1])).
  vm_compute. reflexivity.
Defined.
